(** * TestFlight checker bot (bot.py): polling cycle, store and dispatch

    A shallow embedding of [bot.py].  The two module-level sets
    [subscribed_users] and [test_mode_users] are finite sets of Discord user
    ids, the registry [TESTFLIGHT_LINKS] is an insertion-ordered association
    list, and every call into [requests] or [discord] is answered by an
    explicit environment: a [Network] for the page fetches and a [Platform]
    for user lookups and direct messages.  Calls that may raise return an
    [Outcome]; a call that may also never return is a [Run].  One pass of
    the [while] loop is modelled as an uninterrupted run: no command handler
    is scheduled at its [await] points, and [asyncio.sleep] and the [print]
    statements are left out. *)

From Stdlib Require Import ZArith String Ascii List Bool Lia.
From stdpp Require Import base gmap sets list strings pretty.
Import ListNotations.

Local Open Scope Z_scope.
#[local] Set Warnings "-clear-no-such-hyp".

(* [simpl] computes appends to a string literal. *)
#[local] Arguments String.append !_ _ / : simpl nomatch.

(** ** Python values used by the bot *)

(** The exception classes the bot distinguishes in its [except] clauses. *)
Inductive exn : Type :=
| RequestException (msg : string)  (* requests.exceptions.RequestException and its subclasses *)
| Forbidden                        (* discord.errors.Forbidden *)
| OtherException (msg : string).   (* any other subclass of Exception *)

(** A call that returns or raises. *)
Inductive Outcome (A : Type) : Type :=
| Returns (a : A)
| Raises (e : exn).
Arguments Returns {A} a.
Arguments Raises {A} e.

(** A call that returns, raises, or never comes back. *)
Inductive Run (A : Type) : Type :=
| Done (a : A)
| Fails (e : exn)
| Blocks.
Arguments Done {A} a.
Arguments Fails {A} e.
Arguments Blocks {A}.

#[global] Instance run_ret : MRet Run := fun A a => Done a.

#[global] Instance run_bind : MBind Run := fun A B k m =>
  match m with
  | Done a => k a
  | Fails e => Fails e
  | Blocks => Blocks
  end.

(** The line feed of the ["\n"] literals. *)
Definition NL : string := String (ascii_of_nat 10) EmptyString.

(** [sep.join(lines)]. *)
Definition join (sep : string) (lines : list string) : string :=
  String.concat sep lines.

(** [needle in hay] on Python strings: [needle] occurs at some offset. *)
Fixpoint contains (needle hay : string) : bool :=
  if String.prefix needle hay then true
  else match hay with
       | EmptyString => false
       | String _ rest => contains needle rest
       end.

(** ** Configuration *)

Definition CHECK_INTERVAL : Z := 60.

Definition TESTFLIGHT_LINKS : list (string * string) :=
  [ ("Group A", "https://testflight.apple.com/join/rACTLjPL");
    ("Group B", "https://testflight.apple.com/join/ocj3yptn");
    ("Group C", "https://testflight.apple.com/join/CuMxZE2M");
    ("Group D", "https://testflight.apple.com/join/T6qKfV6f");
    ("Group E", "https://testflight.apple.com/join/sMm1MCYc") ].

Definition FULL_TEXT : string := "This beta is full.".

Definition USER_AGENT : string :=
  "Mozilla/5.0 (Windows NT 10.0; Win64; x64) AppleWebKit/537.36 (KHTML, like Gecko) Chrome/58.0.3029.110 Safari/537.3".

(** ** The [requests] calls of the poll loop *)

(** The arguments of one [requests.get] call.  [timeout] is the keyword
    argument of that name; [None] is the library's default, which waits for
    the server without limit. *)
Record Request : Type := mkRequest {
  req_url : string;
  req_headers : list (string * string);
  req_timeout : option Z
}.

Record Response : Type := mkResponse {
  status_code : Z;
  reason : string;
  text : string
}.

(** What the server behind a URL does with a request. *)
Inductive Remote : Type :=
| Answers (r : Response)
| Breaks (cause : string)   (* connection refused, DNS failure, TLS error, ... *)
| Silent.                   (* accepts the connection and never answers *)

Definition Network : Type := string -> Remote.

(** [requests.get]: a transport error is a [RequestException]; a silent
    server is a [Timeout] (a [RequestException]) when the call carries a
    timeout, and otherwise the call waits forever. *)
Definition requests_get (net : Network) (rq : Request) : Run Response :=
  match net (req_url rq) with
  | Answers r => Done r
  | Breaks cause => Fails (RequestException cause)
  | Silent =>
      match req_timeout rq with
      | Some _ => Fails (RequestException "Read timed out.")
      | None => Blocks
      end
  end.

(** [Response.raise_for_status]: an [HTTPError] (a [RequestException]) for a
    4xx or 5xx status, nothing otherwise. *)
Definition raise_for_status (url : string) (r : Response) : Run unit :=
  if (400 <=? status_code r) && (status_code r <? 500) then
    Fails (RequestException
             (pretty (status_code r) +:+ " Client Error: " +:+ reason r +:+ " for url: " +:+ url))
  else if (500 <=? status_code r) && (status_code r <? 600) then
    Fails (RequestException
             (pretty (status_code r) +:+ " Server Error: " +:+ reason r +:+ " for url: " +:+ url))
  else Done tt.

(** ** The link loop of [check_links_and_notify] *)

(** The two lists the loop fills. *)
Record Report : Type := mkReport {
  all_status_messages : list string;
  slot_available_links : list string
}.

Definition empty_report : Report := mkReport [] [].

Definition full_line (name : string) : string :=
  "**" +:+ name +:+ "**: Full.".

Definition slot_line (name url : string) : string :=
  "**" +:+ name +:+ "**: :tada: THERE IS A SLOT! <" +:+ url +:+ ">".

Definition error_line (name cause : string) : string :=
  "Could not check status for **" +:+ name +:+ "**. Error: " +:+ cause.

(** The request issued for one link (line 65). *)
Definition link_request (url : string) : Request :=
  {| req_url := url;
     req_headers := [("User-Agent", USER_AGENT)];
     req_timeout := None |}.

(** The [try] block of the loop body (lines 62-73). *)
Definition try_link (net : Network) (name url : string) (rep : Report) : Run Report :=
  response ← requests_get net (link_request url);
  _ ← raise_for_status url response;
  if contains FULL_TEXT (text response) then
    let message := full_line name in
    Done (mkReport (all_status_messages rep ++ [message]) (slot_available_links rep))
  else
    let message := slot_line name url in
    Done (mkReport (all_status_messages rep ++ [message])
                   (slot_available_links rep ++ [message])).

(** One iteration of [for name, url in TESTFLIGHT_LINKS.items()], with its
    [except requests.exceptions.RequestException] clause (lines 60-77). *)
Definition check_link (net : Network) (rep : Report) (item : string * string) : Run Report :=
  let '(name, url) := item in
  match try_link net name url rep with
  | Fails (RequestException cause) =>
      Done (mkReport (all_status_messages rep ++ [error_line name cause])
                     (slot_available_links rep))
  | r => r
  end.

Fixpoint check_links (net : Network) (links : list (string * string)) (rep : Report) : Run Report :=
  match links with
  | [] => Done rep
  | item :: rest => rep' ← check_link net rep item; check_links net rest rep'
  end.

(** ** The check results the two lists stand for

    The loop keeps no record per target: a target's outcome is the line it
    appends and whether that line also goes to [slot_available_links].
    [check] names the three branches of the loop body as the states FULL,
    AVAILABLE and UNREACHABLE, and [record] is what the loop does with the
    line of each; [check_link_check] below shows that the loop body is
    exactly [record] after [check]. *)

Inductive State : Type := FULL | AVAILABLE | UNREACHABLE.

#[global] Instance State_eq_dec : EqDecision State.
Proof. solve_decision. Defined.

Record CheckResult : Type := mkResult {
  target_name : string;
  target_url : string;
  state : State;
  detail : string
}.

Definition check (net : Network) (name url : string) : Run CheckResult :=
  match (response ← requests_get net (link_request url);
         _ ← raise_for_status url response;
         mret response) with
  | Done response =>
      if contains FULL_TEXT (text response)
      then Done (mkResult name url FULL (full_line name))
      else Done (mkResult name url AVAILABLE (slot_line name url))
  | Fails (RequestException cause) =>
      Done (mkResult name url UNREACHABLE (error_line name cause))
  | Fails e => Fails e
  | Blocks => Blocks
  end.

Definition is_available (r : CheckResult) : bool :=
  bool_decide (state r = AVAILABLE).

Definition record (rep : Report) (r : CheckResult) : Report :=
  mkReport (all_status_messages rep ++ [detail r])
           (if is_available r then slot_available_links rep ++ [detail r]
            else slot_available_links rep).

Fixpoint check_all (net : Network) (links : list (string * string)) : Run (list CheckResult) :=
  match links with
  | [] => Done []
  | (name, url) :: rest =>
      r ← check net name url; rs ← check_all net rest; mret (r :: rs)
  end.

(** ** Subscriber state *)

(** The module-level sets [subscribed_users] and [test_mode_users]. *)
Record Store : Type := mkStore {
  subscribed_users : gset Z;
  test_mode_users : gset Z
}.

Definition empty_store : Store := mkStore ∅ ∅.

(** [subscribed_users.discard(user_id); test_mode_users.discard(user_id)]. *)
Definition discard_user (user_id : Z) (st : Store) : Store :=
  mkStore (subscribed_users st ∖ {[user_id]}) (test_mode_users st ∖ {[user_id]}).

(** ** The dispatch loop of [check_links_and_notify] *)

(** A [discord.User] object; [user.send] goes to the user it stands for. *)
Record User : Type := mkUser { uid : Z }.

(** The Discord side.  [lookup] is what the API answers to
    [bot.fetch_user(user_id)]: an exception, or whether a user object came
    back; [send] is what [user.send(text)] does. *)
Record Platform : Type := mkPlatform {
  lookup : Z -> Outcome bool;
  send : User -> string -> Outcome unit
}.

(** [bot.fetch_user(user_id)]: the object returned is the user asked for. *)
Definition fetch_user (plat : Platform) (user_id : Z) : Outcome (option User) :=
  match lookup plat user_id with
  | Returns true => Returns (Some (mkUser user_id))
  | Returns false => Returns None
  | Raises e => Raises e
  end.

(** Every [user.send(text)] call made, in order: recipient and text. *)
Definition Outbox : Type := list (Z * string).

Definition STATUS_HEADER : string := "--- Test Mode Status Update ---".
Definition SLOT_HEADER : string := "--- :tada: Slot Available! ---".

(** Line 80. *)
Definition full_update_message (rep : Report) : string :=
  STATUS_HEADER +:+ NL +:+ join NL (all_status_messages rep).

(** Line 81. *)
Definition slot_found (rep : Report) : bool :=
  bool_decide (0 < length (slot_available_links rep))%nat.

(** Line 94. *)
Definition slot_notification (rep : Report) : string :=
  SLOT_HEADER +:+ NL +:+ join NL (slot_available_links rep).

Definition user_send (plat : Platform) (user : User) (msg : string) (out : Outbox)
  : Outcome unit * Outbox :=
  (send plat user msg, out ++ [(uid user, msg)]).

(** The [try] block of the dispatch loop (lines 86-95). *)
Definition try_notify (plat : Platform) (rep : Report) (user_id : Z)
    (st : Store) (out : Outbox) : Outcome unit * Outbox :=
  match fetch_user plat user_id with
  | Raises e => (Raises e, out)
  | Returns None => (Returns tt, out)
  | Returns (Some user) =>
      if decide (user_id ∈ test_mode_users st) then
        user_send plat user (full_update_message rep) out
      else if slot_found rep then
        user_send plat user (slot_notification rep) out
      else (Returns tt, out)
  end.

(** One iteration of [for user_id in list(subscribed_users)] with its two
    [except] clauses (lines 84-102). *)
Definition notify_user (plat : Platform) (rep : Report)
    (s : Store * Outbox) (user_id : Z) : Store * Outbox :=
  let '(st, out) := s in
  match try_notify plat rep user_id st out with
  | (Raises Forbidden, out') => (discard_user user_id st, out')
  | (_, out') => (st, out')
  end.

(** The loop over a snapshot of the subscribed ids. *)
Definition dispatch (plat : Platform) (rep : Report)
    (snapshot : list Z) (s : Store * Outbox) : Store * Outbox :=
  fold_left (notify_user plat rep) snapshot s.

(** One pass of the [while] loop body (lines 54-102) over a registry:
    nothing is done for an empty [subscribed_users]; otherwise the links are
    checked and the snapshot [list(subscribed_users)] is served. *)
Definition cycle (net : Network) (plat : Platform) (links : list (string * string))
    (st : Store) : Run (Store * Outbox) :=
  if decide (subscribed_users st = ∅) then Done (st, [])
  else
    rep ← check_links net links empty_report;
    mret (dispatch plat rep (elements (subscribed_users st)) (st, [])).

Definition check_links_and_notify_pass (net : Network) (plat : Platform) (st : Store)
  : Run (Store * Outbox) :=
  cycle net plat TESTFLIGHT_LINKS st.

(** The calls sent to one recipient, and those the platform accepted. *)
Definition sent_to (user_id : Z) (out : Outbox) : list string :=
  omap (fun m => if decide (m.1 = user_id) then Some m.2 else None) out.

(** [user.send(text)] to this recipient returns normally. *)
Definition accepted (plat : Platform) (user_id : Z) (msg : string) : bool :=
  match send plat (mkUser user_id) msg with
  | Returns _ => true
  | Raises _ => false
  end.

Definition received (plat : Platform) (user_id : Z) (out : Outbox) : list string :=
  List.filter (accepted plat user_id) (sent_to user_id out).

(** ** Commands *)

(** What a handler reads from its [ctx]. *)
Record Context : Type := mkContext {
  channel_is_dm : bool;     (* isinstance(ctx.channel, discord.DMChannel) *)
  author_id : Z;
  author_name : string
}.

Definition DM_ONLY_MSG : string :=
  "This command only works in my DMs! Please message me directly.".
Definition ALREADY_SUBSCRIBED_MSG : string := "You are already subscribed!".
Definition SUBSCRIBED_MSG : string :=
  "You have successfully subscribed! **By default, I will only message you when a slot opens.**"
  +:+ NL +:+ NL +:+
  "To get a status message every minute (even if full), type `testflight>test-mode`."
  +:+ NL +:+
  "To unsubscribe, type `testflight>stop`.".
Definition SUBSCRIBE_FIRST_MSG : string :=
  "You need to subscribe first! Type `testflight>notify` to begin.".
Definition TEST_MODE_DISABLED_MSG : string :=
  "Test mode **disabled**. You will now only receive notifications when a slot is available.".
Definition TEST_MODE_ENABLED_MSG : string :=
  "Test mode **enabled**. You will now receive a status update every minute.".
Definition UNSUBSCRIBED_MSG : string :=
  "You have been unsubscribed. You will no longer receive updates.".
Definition NOT_SUBSCRIBED_MSG : string := "You are not currently subscribed.".

(** A handler returns the new store and the texts it passed to [ctx.send]. *)
Definition notify (ctx : Context) (st : Store) : Store * list string :=
  if negb (channel_is_dm ctx) then (st, [DM_ONLY_MSG])
  else
    let user_id := author_id ctx in
    if decide (user_id ∈ subscribed_users st) then (st, [ALREADY_SUBSCRIBED_MSG])
    else (mkStore ({[user_id]} ∪ subscribed_users st) (test_mode_users st),
          [SUBSCRIBED_MSG]).

Definition test_mode (ctx : Context) (st : Store) : Store * list string :=
  if negb (channel_is_dm ctx) then (st, [])
  else
    let user_id := author_id ctx in
    if decide (user_id ∉ subscribed_users st) then (st, [SUBSCRIBE_FIRST_MSG])
    else if decide (user_id ∈ test_mode_users st) then
      (mkStore (subscribed_users st) (test_mode_users st ∖ {[user_id]}),
       [TEST_MODE_DISABLED_MSG])
    else
      (mkStore (subscribed_users st) ({[user_id]} ∪ test_mode_users st),
       [TEST_MODE_ENABLED_MSG]).

Definition stop (ctx : Context) (st : Store) : Store * list string :=
  if negb (channel_is_dm ctx) then (st, [])
  else
    let user_id := author_id ctx in
    if decide (user_id ∈ subscribed_users st) then
      (discard_user user_id st, [UNSUBSCRIBED_MSG])
    else (st, [NOT_SUBSCRIBED_MSG]).

(** The store invariant of the data model: test mode only for subscribers. *)
Definition store_ok (st : Store) : Prop :=
  test_mode_users st ⊆ subscribed_users st.

(** The operations that write the store. *)
Inductive Op : Type :=
| OpNotify (ctx : Context)
| OpTestMode (ctx : Context)
| OpStop (ctx : Context)
| OpForbidden (user_id : Z).   (* the dispatch loop's [except discord.errors.Forbidden] *)

Definition apply_op (op : Op) (st : Store) : Store :=
  match op with
  | OpNotify ctx => (notify ctx st).1
  | OpTestMode ctx => (test_mode ctx st).1
  | OpStop ctx => (stop ctx st).1
  | OpForbidden user_id => discard_user user_id st
  end.

(** ** The [help] handler and [on_message] *)

Definition HELP_MSG : string :=
  "**Hello! I am the TestFlight Notifier Bot.** Here are my commands:" +:+ NL +:+ NL +:+
  "`testflight>notify`" +:+ NL +:+
  "Subscribes you to notifications. By default, I will only message you when a slot opens."
  +:+ NL +:+ NL +:+
  "`testflight>stop`" +:+ NL +:+
  "Unsubscribes you from all notifications." +:+ NL +:+ NL +:+
  "`testflight>test-mode`" +:+ NL +:+
  "Toggles test mode. When enabled, you will receive a status update every minute, regardless of whether slots are full or open."
  +:+ NL +:+ NL +:+
  "`testflight>help`" +:+ NL +:+
  "Shows this help message.".

Definition help (ctx : Context) (st : Store) : Store * list string :=
  if negb (channel_is_dm ctx) then (st, [])
  else (st, [HELP_MSG]).

(** The handlers as the closed set of commands a user can invoke. *)
Inductive Command : Type :=
| CmdNotify (ctx : Context)
| CmdTestMode (ctx : Context)
| CmdStop (ctx : Context)
| CmdHelp (ctx : Context).

Definition command_ctx (c : Command) : Context :=
  match c with
  | CmdNotify ctx | CmdTestMode ctx | CmdStop ctx | CmdHelp ctx => ctx
  end.

Definition run_command (c : Command) (st : Store) : Store * list string :=
  match c with
  | CmdNotify ctx => notify ctx st
  | CmdTestMode ctx => test_mode ctx st
  | CmdStop ctx => stop ctx st
  | CmdHelp ctx => help ctx st
  end.

(** The [command_prefix] given to [commands.Bot]. *)
Definition command_prefix : string := "testflight>".

(** What [on_message] reads from a [discord.Message]. *)
Record Message : Type := mkMessage {
  from_self : bool;        (* message.author == bot.user *)
  from_bot : bool;         (* message.author.bot *)
  message_ctx : Context;   (* the channel and the author, as a handler sees them *)
  content : string
}.

(** The names the [@bot.command] decorators register: the function name, or
    the [name=] argument for [test_mode]. *)
Definition all_commands (name : string) : option (Context -> Command) :=
  if String.eqb name "notify" then Some CmdNotify
  else if String.eqb name "test-mode" then Some CmdTestMode
  else if String.eqb name "stop" then Some CmdStop
  else if String.eqb name "help" then Some CmdHelp
  else None.

(** [str.isspace] on the ASCII range. *)
Definition isspace (c : ascii) : bool :=
  let n := nat_of_ascii c in
  ((9 <=? n) && (n <=? 13) || (28 <=? n) && (n <=? 32))%nat.

(** [StringView.get_word]: the characters up to the first white space. *)
Fixpoint get_word (s : string) : string :=
  match s with
  | EmptyString => EmptyString
  | String c rest => if isspace c then EmptyString else String c (get_word rest)
  end.

(** [StringView.skip_string]: the rest of [s] after [p], when [s] starts
    with [p]. *)
Fixpoint skip_string (p s : string) : option string :=
  match p, s with
  | EmptyString, _ => Some s
  | String a p', String b s' => if Ascii.eqb a b then skip_string p' s' else None
  | String _ _, EmptyString => None
  end.

(** [bot.process_commands(message)] of [discord.ext.commands]: messages of
    bots are skipped; after the prefix the first word names the command; the
    words after it are ignored by handlers that take no argument; an unknown
    or empty name invokes nothing (the default [on_command_error] only
    prints). *)
Definition process_commands (message : Message) (st : Store) : Store * list string :=
  if from_bot message then (st, [])
  else
    match skip_string command_prefix (content message) with
    | None => (st, [])
    | Some rest =>
        match all_commands (get_word rest) with
        | Some command => run_command (command (message_ctx message)) st
        | None => (st, [])
        end
    end.

Definition FALLBACK_MSG : string :=
  "Sorry, I don't quite understand that. If you need help, type `testflight>help`. Thank you!".

(** [on_message] (lines 120-135): the store it leaves and the texts sent to
    the channel, its own reply first. *)
Definition on_message (message : Message) (st : Store) : Store * list string :=
  if from_self message then (st, [])
  else
    let own :=
      if channel_is_dm (message_ctx message) then
        if negb (String.prefix command_prefix (content message)) then [FALLBACK_MSG]
        else []
      else [] in
    let '(st', replies) := process_commands message st in
    (st', own ++ replies).

(** ** The [while] loop of [check_links_and_notify] *)

(** One turn of the loop: the servers and Discord as they are during the
    pass, and the commands handled while the loop sleeps for
    [CHECK_INTERVAL] seconds. *)
Record Tick : Type := mkTick {
  tick_net : Network;
  tick_plat : Platform;
  tick_commands : list Command
}.

Definition run_commands (cs : list Command) (st : Store) : Store :=
  fold_left (fun st c => (run_command c st).1) cs st.

(** The loop over a registry, as many turns as there are ticks: the final
    store and the outbox of each pass. *)
Fixpoint poll_loop (links : list (string * string)) (ticks : list Tick) (st : Store)
  : Run (Store * list Outbox) :=
  match ticks with
  | [] => Done (st, [])
  | t :: rest =>
      s1 ← cycle (tick_net t) (tick_plat t) links st;
      s2 ← poll_loop links rest (run_commands (tick_commands t) s1.1);
      mret (s2.1, s1.2 :: s2.2)
  end.

Definition check_links_and_notify (ticks : list Tick) (st : Store)
  : Run (Store * list Outbox) :=
  poll_loop TESTFLIGHT_LINKS ticks st.

(** The author a command subscribes: [notify] issued in a direct-message
    channel; nobody otherwise. *)
Definition notify_by (c : Command) : option Z :=
  match c with
  | CmdNotify ctx => if channel_is_dm ctx then Some (author_id ctx) else None
  | _ => None
  end.

(** ** Notions used in the statements *)

(** [needle] occurs in [hay]. *)
Definition occurs (needle hay : string) : Prop :=
  exists before after, hay = before +:+ needle +:+ after.

(** The last character of a string. *)
Fixpoint last_char (s : string) : option ascii :=
  match s with
  | EmptyString => None
  | String c EmptyString => Some c
  | String _ rest => last_char rest
  end.

(** What a check result looks like, state by state. *)
Inductive result_shape (name url : string) : CheckResult -> Prop :=
| shape_full :
    result_shape name url (mkResult name url FULL (full_line name))
| shape_available :
    result_shape name url (mkResult name url AVAILABLE (slot_line name url))
| shape_unreachable cause :
    result_shape name url (mkResult name url UNREACHABLE (error_line name cause)).

(** A server that answers or breaks, but does not stay silent. *)
Definition responsive (net : Network) (item : string * string) : Prop :=
  net item.2 <> Silent.

(** A fetch failure as the loop sees it: [requests.get] raises for a
    transport error, or [raise_for_status] raises for the status of the
    response. *)
Inductive fetch_failure (net : Network) (url : string) : string -> Prop :=
| transport_error cause :
    net url = Breaks cause -> fetch_failure net url cause
| http_error r cause :
    net url = Answers r ->
    raise_for_status url r = Fails (RequestException cause) ->
    fetch_failure net url cause.

(** The text the loop body picks for a user, by the user's tier. *)
Definition message_for (rep : Report) (st : Store) (user_id : Z) : option string :=
  if decide (user_id ∈ test_mode_users st) then Some (full_update_message rep)
  else if slot_found rep then Some (slot_notification rep)
  else None.

(** The [user.send] calls one iteration makes, and how its [try] block ends. *)
Definition attempt (plat : Platform) (rep : Report) (st : Store) (user_id : Z) : list string :=
  match lookup plat user_id with
  | Returns true => option_list (message_for rep st user_id)
  | _ => []
  end.

Definition delivery (plat : Platform) (rep : Report) (st : Store) (user_id : Z) : Outcome unit :=
  match lookup plat user_id with
  | Raises e => Raises e
  | Returns false => Returns tt
  | Returns true =>
      match message_for rep st user_id with
      | Some msg => send plat (mkUser user_id) msg
      | None => Returns tt
      end
  end.

Definition is_forbidden (o : Outcome unit) : bool :=
  match o with
  | Raises Forbidden => true
  | _ => false
  end.

(** ** A sample environment *)

Definition page (body : string) : Response := mkResponse 200 "OK" body.

Definition FULL_PAGE : string :=
  "<html><body><span>This beta is full.</span></body></html>".
Definition OPEN_PAGE : string :=
  "<html><body><span>Start Testing</span></body></html>".

(** Group A and E are full, B is open, C refuses the connection and D
    answers 503. *)
Definition demo_net : Network := fun url =>
  if String.eqb url "https://testflight.apple.com/join/ocj3yptn" then Answers (page OPEN_PAGE)
  else if String.eqb url "https://testflight.apple.com/join/CuMxZE2M" then Breaks "Connection refused"
  else if String.eqb url "https://testflight.apple.com/join/T6qKfV6f"
       then Answers (mkResponse 503 "Service Unavailable" "")
  else Answers (page FULL_PAGE).

(** Every page is full. *)
Definition full_net : Network := fun _ => Answers (page FULL_PAGE).

(** Group C never answers. *)
Definition silent_net : Network := fun url =>
  if String.eqb url "https://testflight.apple.com/join/CuMxZE2M" then Silent
  else Answers (page FULL_PAGE).

(** User 2 has closed direct messages; user 3 no longer exists. *)
Definition demo_plat : Platform :=
  {| lookup := fun user_id =>
       if user_id =? 3 then Raises (OtherException "Unknown User") else Returns true;
     send := fun user _ => if uid user =? 2 then Raises Forbidden else Returns tt |}.

Definition demo_store : Store := mkStore {[1; 2; 3]} {[2]}.

Definition URL_A : string := "https://testflight.apple.com/join/rACTLjPL".
Definition URL_B : string := "https://testflight.apple.com/join/ocj3yptn".
Definition URL_C : string := "https://testflight.apple.com/join/CuMxZE2M".
Definition URL_D : string := "https://testflight.apple.com/join/T6qKfV6f".

Definition LINE_A : string := "**Group A**: Full.".
Definition LINE_B : string :=
  "**Group B**: :tada: THERE IS A SLOT! <https://testflight.apple.com/join/ocj3yptn>".
Definition LINE_C : string :=
  "Could not check status for **Group C**. Error: Connection refused".
Definition LINE_D : string :=
  "Could not check status for **Group D**. Error: 503 Server Error: Service Unavailable for url: https://testflight.apple.com/join/T6qKfV6f".
Definition LINE_E : string := "**Group E**: Full.".

(** What the link loop reports on [demo_net]. *)
Definition demo_report : Report :=
  mkReport [LINE_A; LINE_B; LINE_C; LINE_D; LINE_E] [LINE_B].

Definition demo_digest : string :=
  "--- Test Mode Status Update ---" +:+ NL +:+ LINE_A +:+ NL +:+ LINE_B +:+ NL +:+
  LINE_C +:+ NL +:+ LINE_D +:+ NL +:+ LINE_E.

Definition demo_slots : string :=
  "--- :tada: Slot Available! ---" +:+ NL +:+ LINE_B.

(** The sends of the pass over [demo_store]: the snapshot comes out as
    3, 2, 1; user 3 is not found, user 2 is in test mode, user 1 is not. *)
Definition demo_outbox : Outbox := [(2, demo_digest); (1, demo_slots)].

(** Discord refuses the lookup of user 2; everything else goes through. *)
Definition refusing_plat : Platform :=
  {| lookup := fun user_id => if user_id =? 2 then Raises Forbidden else Returns true;
     send := fun _ _ => Returns tt |}.

(** Every server answers 204 with an empty body. *)
Definition empty_net : Network := fun _ => Answers (mkResponse 204 "No Content" "").

(** No server ever answers. *)
Definition dead_net : Network := fun _ => Silent.

Definition dm (user_id : Z) : Context := mkContext true user_id "user".
Definition group (user_id : Z) : Context := mkContext false user_id "user".

(** A message of a user, not a bot. *)
Definition said (ctx : Context) (text : string) : Message := mkMessage false false ctx text.

(** Two turns of the loop: user 4 subscribes and user 1 leaves during the
    first sleep, user 2 asks for help during the second. *)
Definition demo_ticks : list Tick :=
  [ mkTick demo_net demo_plat [CmdNotify (dm 4); CmdStop (dm 1)];
    mkTick demo_net demo_plat [CmdHelp (dm 2); CmdNotify (group 2)] ].

(** * Properties *)

(** ** Strings *)

Lemma append_assoc (s t u : string) : (s +:+ t) +:+ u = s +:+ t +:+ u.
Proof. induction s as [|c s IH]; simpl; congruence. Qed.

Lemma prefix_true_iff (p s : string) :
  String.prefix p s = true <-> exists t, s = p +:+ t.
Proof.
  revert s. induction p as [|a p IH]; intros [|b s]; simpl.
  - split; [intros _; by exists "" | done].
  - split; [intros _; by exists (String b s) | done].
  - split; [done | intros [t Ht]; discriminate].
  - destruct (ascii_dec a b) as [->|Hne].
    + rewrite IH. split; intros [t Ht]; exists t; congruence.
    + split; [done | intros [t Ht]; congruence].
Qed.

Lemma contains_nil (needle : string) :
  contains needle "" = String.prefix needle "".
Proof.
  change (contains needle "") with (if String.prefix needle "" then true else false).
  by destruct (String.prefix needle "").
Qed.

Lemma contains_cons (needle : string) (c : ascii) (hay : string) :
  contains needle (String c hay) =
  String.prefix needle (String c hay) || contains needle hay.
Proof. reflexivity. Qed.

Lemma contains_true_iff (needle hay : string) :
  contains needle hay = true <-> occurs needle hay.
Proof.
  unfold occurs. induction hay as [|c hay IH].
  - rewrite contains_nil, prefix_true_iff. split.
    + intros [t Ht]. by exists "", t.
    + intros ([|? before] & after & Heq); simpl in Heq; [by exists after | done].
  - rewrite contains_cons, orb_true_iff, prefix_true_iff, IH. split.
    + intros [[t Ht] | (before & after & ->)].
      * by exists "", t.
      * by exists (String c before), after.
    + intros ([|c' before] & after & Heq); simpl in Heq.
      * left. by exists after.
      * right. injection Heq as -> ->. by exists before, after.
Qed.

Lemma contains_false_iff (needle hay : string) :
  contains needle hay = false <-> ~ occurs needle hay.
Proof.
  rewrite <- contains_true_iff. destruct (contains needle hay); split; congruence.
Qed.

Lemma last_char_app (s t : string) :
  t <> EmptyString -> last_char (s +:+ t) = last_char t.
Proof.
  intros Ht. induction s as [|c s IH]; [done|].
  simpl. rewrite IH. destruct (s +:+ t) eqn:E; [|done].
  destruct s; simpl in E; [done | discriminate].
Qed.

Lemma append_nonempty (s t : string) : t <> EmptyString -> s +:+ t <> EmptyString.
Proof. intros Ht. destruct s; simpl; [done | discriminate]. Qed.

Lemma last_char_full_line name : last_char (full_line name) = Some "."%char.
Proof.
  unfold full_line.
  rewrite !last_char_app; [done | done | by apply append_nonempty].
Qed.

Lemma last_char_slot_line name url : last_char (slot_line name url) = Some ">"%char.
Proof.
  unfold slot_line.
  rewrite !last_char_app; [done | done | | |]; by repeat apply append_nonempty.
Qed.

Lemma slot_line_marker name url : occurs ":tada: THERE IS A SLOT!" (slot_line name url).
Proof. by exists ("**" +:+ name +:+ "**: "), (" <" +:+ url +:+ ">"); unfold slot_line;
  rewrite !append_assoc. Qed.

Lemma slot_line_url name url : occurs url (slot_line name url).
Proof.
  exists ("**" +:+ name +:+ "**: :tada: THERE IS A SLOT! <"), ">".
  unfold slot_line. by rewrite !append_assoc.
Qed.

(** ** The link loop *)

(** [raise_for_status] raises nothing but an [HTTPError]. *)
Lemma raise_for_status_cases url r :
  raise_for_status url r = Done tt \/
  exists cause, raise_for_status url r = Fails (RequestException cause).
Proof.
  unfold raise_for_status.
  destruct (_ && _); [right; eauto|]. destruct (_ && _); [right; eauto | by left].
Qed.

Lemma error_status_raises url r :
  400 <= status_code r < 600 ->
  exists cause, raise_for_status url r = Fails (RequestException cause).
Proof.
  intros Hs. unfold raise_for_status.
  destruct (Z.ltb_spec (status_code r) 500).
  - replace (400 <=? status_code r) with true by (symmetry; apply Z.leb_le; lia).
    simpl. eauto.
  - replace (status_code r <? 500) with false by (symmetry; apply Z.ltb_ge; lia).
    rewrite andb_false_r.
    replace (500 <=? status_code r) with true by (symmetry; apply Z.leb_le; lia).
    replace (status_code r <? 600) with true by (symmetry; apply Z.ltb_lt; lia).
    simpl. eauto.
Qed.

(** The loop body is [check] followed by [record]. *)
Lemma check_link_check net rep name url :
  check_link net rep (name, url) = r ← check net name url; mret (record rep r).
Proof.
  unfold check_link, try_link, check.
  destruct (requests_get net (link_request url)) as [response|[]|]; simpl; try done.
  destruct (raise_for_status_cases url response) as [-> | [cause ->]]; simpl; [|done].
  by destruct (contains FULL_TEXT (text response)).
Qed.

Lemma check_cases net name url :
  (exists r, check net name url = Done r /\ result_shape name url r) \/
  check net name url = Blocks.
Proof.
  unfold check, requests_get, link_request; simpl.
  destruct (net url) as [response|cause|]; simpl.
  - left. destruct (raise_for_status_cases url response) as [-> | [cause ->]]; simpl.
    + destruct (contains FULL_TEXT (text response)); eexists; split; eauto; constructor.
    + eexists; split; eauto; constructor.
  - left. eexists; split; eauto; constructor.
  - by right.
Qed.

Lemma check_never_raises net name url e : check net name url <> Fails e.
Proof. destruct (check_cases net name url) as [(r & -> & _) | ->]; done. Qed.

(** The whole loop is [check_all] followed by a fold of [record]. *)
Lemma check_links_check_all net links rep :
  check_links net links rep = rs ← check_all net links; mret (fold_left record rs rep).
Proof.
  revert rep. induction links as [|[name url] links IH]; intros rep; [done|].
  cbn [check_links check_all]. rewrite check_link_check.
  destruct (check net name url) as [r| |]; simpl; [|done..].
  rewrite IH. by destruct (check_all net links).
Qed.

Lemma fold_record_all rs rep :
  all_status_messages (fold_left record rs rep) =
  all_status_messages rep ++ map detail rs.
Proof.
  revert rep. induction rs as [|r rs IH]; intros rep; simpl.
  - by rewrite app_nil_r.
  - rewrite IH. simpl. by rewrite <- app_assoc.
Qed.

Lemma fold_record_slots rs rep :
  slot_available_links (fold_left record rs rep) =
  slot_available_links rep ++ map detail (filter (fun r => state r = AVAILABLE) rs).
Proof.
  revert rep. induction rs as [|r rs IH]; intros rep; simpl.
  - by rewrite app_nil_r.
  - rewrite IH. unfold record, is_available; simpl.
    rewrite filter_cons. destruct (decide (state r = AVAILABLE)) as [Hs|Hs].
    + rewrite bool_decide_eq_true_2 by done. simpl. by rewrite <- app_assoc.
    + by rewrite bool_decide_eq_false_2 by done.
Qed.

Lemma check_links_app net l1 l2 rep :
  check_links net (l1 ++ l2) rep = rep1 ← check_links net l1 rep; check_links net l2 rep1.
Proof.
  revert rep. induction l1 as [|item l1 IH]; intros rep; [done|].
  simpl. destruct (check_link net rep item); simpl; auto.
Qed.

Lemma check_all_app net l1 l2 :
  check_all net (l1 ++ l2) =
  rs1 ← check_all net l1; rs2 ← check_all net l2; mret (rs1 ++ rs2).
Proof.
  induction l1 as [|[name url] l1 IH]; simpl.
  - by destruct (check_all net l2).
  - destruct (check net name url); simpl; [|done..].
    rewrite IH. destruct (check_all net l1); simpl; [|done..].
    by destruct (check_all net l2).
Qed.

(** Results come one per target, in registry order. *)
Lemma check_all_shape net links rs :
  check_all net links = Done rs ->
  Forall2 (fun item r => result_shape item.1 item.2 r) links rs.
Proof.
  revert rs. induction links as [|[name url] links IH]; intros rs; simpl.
  - intros [= <-]. constructor.
  - destruct (check_cases net name url) as [(r & -> & Hr) | ->]; simpl; [|done].
    destruct (check_all net links) as [rs'| |]; simpl; [|done..].
    intros [= <-]. constructor; auto.
Qed.

(** The loop completes when no server stays silent. *)
Lemma check_all_responsive net links :
  Forall (responsive net) links -> exists rs, check_all net links = Done rs.
Proof.
  induction 1 as [|[name url] links Hr _ [rs IH]]; simpl; [by eexists|].
  destruct (check_cases net name url) as [(r & -> & _) | Hb]; simpl.
  - rewrite IH. by eexists.
  - exfalso. apply Hr. unfold check, requests_get, link_request in Hb; simpl in *.
    destruct (net url) as [response| |]; simpl in *; try done.
    destruct (raise_for_status_cases url response) as [E | [cause E]];
      rewrite E in Hb; simpl in Hb; [|done].
    by destruct (contains FULL_TEXT (text response)).
Qed.

Lemma check_links_never_raises net links rep e : check_links net links rep <> Fails e.
Proof.
  rewrite check_links_check_all.
  assert (forall e', check_all net links <> Fails e') as Hall.
  { clear. induction links as [|[name url] links IH]; intros e'; simpl; [done|].
    pose proof (check_never_raises net name url) as Hc.
    destruct (check net name url) as [r|e0|]; simpl; [|by destruct (Hc e0)|done].
    specialize (IH e'). by destruct (check_all net links). }
  destruct (check_all net links) as [rs|e0|]; simpl; [done| |done].
  by destruct (Hall e0).
Qed.

Lemma fetch_failure_check net name url cause :
  fetch_failure net url cause ->
  check net name url = Done (mkResult name url UNREACHABLE (error_line name cause)).
Proof.
  unfold check, requests_get, link_request; simpl.
  intros [c Hn | r c Hn Hr]; rewrite Hn; simpl; [done|]. by rewrite Hr.
Qed.

(** C1: for a target whose fetch succeeds, a body that contains the marker
    [FULL_TEXT] ("This beta is full.") gives the state FULL with the detail
    line made of the name (set in bold, [**name**]) and [: Full.], kept out of
    the slot list; a body without the marker gives the state AVAILABLE with a
    detail line that contains the slot marker and the target's URL, and that
    line goes to both lists. *)
Theorem marker_decides_state (net : Network) (name url : string) (response : Response) :
  requests_get net (link_request url) = Done response ->
  raise_for_status url response = Done tt ->
  FULL_TEXT = "This beta is full." /\
  (occurs FULL_TEXT (text response) ->
     check net name url = Done (mkResult name url FULL ("**" +:+ name +:+ "**: Full.")) /\
     forall rep, check_link net rep (name, url) =
       Done (mkReport (all_status_messages rep ++ ["**" +:+ name +:+ "**: Full."])
                      (slot_available_links rep))) /\
  (~ occurs FULL_TEXT (text response) ->
     exists line,
       check net name url = Done (mkResult name url AVAILABLE line) /\
       occurs ":tada: THERE IS A SLOT!" line /\ occurs url line /\
       forall rep, check_link net rep (name, url) =
         Done (mkReport (all_status_messages rep ++ [line])
                        (slot_available_links rep ++ [line]))).
Proof.
  intros Hget Hstatus. split; [done|]. split.
  - intros Hin%contains_true_iff.
    assert (check net name url = Done (mkResult name url FULL (full_line name))) as Hc.
    { unfold check. rewrite Hget; simpl. rewrite Hstatus; simpl. by rewrite Hin. }
    split; [exact Hc|]. intros rep. by rewrite check_link_check, Hc.
  - intros Hout%contains_false_iff. exists (slot_line name url).
    assert (check net name url = Done (mkResult name url AVAILABLE (slot_line name url))) as Hc.
    { unfold check. rewrite Hget; simpl. rewrite Hstatus; simpl. by rewrite Hout. }
    split; [exact Hc|]. split; [apply slot_line_marker|]. split; [apply slot_line_url|].
    intros rep. by rewrite check_link_check, Hc.
Qed.

(** C2: a fetch failure (transport error, or an error status caught by
    [raise_for_status]) gives the state UNREACHABLE with the detail line
    "Could not check status for **name**. Error: cause"; the loop body returns
    instead of raising, the loop never raises, it goes on with the targets
    after the failed one, and when the other servers respond the pass ends with one line per
    target in registry order. *)
Theorem fetch_failure_is_unreachable (net : Network) (name url cause : string) :
  fetch_failure net url cause ->
  let line := "Could not check status for **" +:+ name +:+ "**. Error: " +:+ cause in
  check net name url = Done (mkResult name url UNREACHABLE line) /\
  (forall rep, check_link net rep (name, url) =
     Done (mkReport (all_status_messages rep ++ [line]) (slot_available_links rep))) /\
  (forall links rep e, check_links net links rep <> Fails e) /\
  (forall before after rep,
     check_links net (before ++ (name, url) :: after) rep =
     rep1 ← check_links net before rep;
     check_links net after
       (mkReport (all_status_messages rep1 ++ [line]) (slot_available_links rep1))) /\
  (forall before after,
     Forall (responsive net) (before ++ after) ->
     exists rs1 rs2 rep,
       check_all net before = Done rs1 /\ check_all net after = Done rs2 /\
       Forall2 (fun item r => result_shape item.1 item.2 r) after rs2 /\
       check_links net (before ++ (name, url) :: after) empty_report = Done rep /\
       all_status_messages rep = map detail rs1 ++ line :: map detail rs2).
Proof.
  intros Hfail line.
  pose proof (fetch_failure_check net name url cause Hfail) as Hc.
  assert (forall rep, check_link net rep (name, url) =
     Done (mkReport (all_status_messages rep ++ [line]) (slot_available_links rep))) as Hl.
  { intros rep. by rewrite check_link_check, Hc. }
  split; [exact Hc|]. split; [exact Hl|].
  split; [intros links rep e; apply check_links_never_raises|]. split.
  - intros before after rep. rewrite check_links_app.
    destruct (check_links net before rep) as [rep1| |]; [|done..].
    unfold mbind, run_bind at 1. cbn [check_links]. by rewrite Hl.
  - intros before after [Hb Ha]%Forall_app.
    destruct (check_all_responsive net before Hb) as [rs1 H1].
    destruct (check_all_responsive net after Ha) as [rs2 H2].
    exists rs1, rs2. eexists. split; [done|]. split; [done|].
    split; [by apply (check_all_shape net)|].
    rewrite check_links_check_all, check_all_app, H1; simpl.
    rewrite Hc; simpl. rewrite H2; simpl. split; [reflexivity|].
    rewrite fold_record_all; simpl. by rewrite map_app.
Qed.

(** C8 (as the code has it): the request of a link carries no timeout, and
    the loop blocks at the first target whose server never answers: the
    targets after it are not checked and the pass sends nothing. *)
Theorem silent_target_blocks_pass (net : Network) (before after : list (string * string))
    (name url : string) :
  Forall (responsive net) before ->
  net url = Silent ->
  req_timeout (link_request url) = None /\
  (forall rep, check_links net (before ++ (name, url) :: after) rep = Blocks) /\
  (forall plat st, subscribed_users st <> ∅ ->
     cycle net plat (before ++ (name, url) :: after) st = Blocks).
Proof.
  intros Hb Hsilent. split; [done|].
  assert (forall rep, check_links net (before ++ (name, url) :: after) rep = Blocks) as Hl.
  { intros rep. rewrite check_links_check_all, check_all_app.
    destruct (check_all_responsive net before Hb) as [rs1 ->]; simpl.
    unfold check, requests_get, link_request; simpl. by rewrite Hsilent. }
  split; [exact Hl|]. intros plat st Hne. unfold cycle.
  destruct (decide (subscribed_users st = ∅)); [done|]. by rewrite Hl.
Qed.

(** ** The dispatch loop *)

Lemma try_notify_spec plat rep user_id st out :
  try_notify plat rep user_id st out =
  (delivery plat rep st user_id, out ++ map (pair user_id) (attempt plat rep st user_id)).
Proof.
  unfold try_notify, delivery, attempt, fetch_user, message_for, user_send.
  destruct (lookup plat user_id) as [[]|e]; simpl; rewrite ?app_nil_r; try done.
  destruct (decide (user_id ∈ test_mode_users st)); simpl; [done|].
  destruct (slot_found rep); simpl; by rewrite ?app_nil_r.
Qed.

Lemma notify_user_spec plat rep st out user_id :
  notify_user plat rep (st, out) user_id =
  (if is_forbidden (delivery plat rep st user_id) then discard_user user_id st else st,
   out ++ map (pair user_id) (attempt plat rep st user_id)).
Proof.
  unfold notify_user. rewrite try_notify_spec.
  by destruct (delivery plat rep st user_id) as [[]|[]].
Qed.

(** What the loop does for a user depends on the store only through that
    user's membership in [test_mode_users]. *)
Lemma message_for_tier rep st1 st2 y :
  (y ∈ test_mode_users st1 <-> y ∈ test_mode_users st2) ->
  message_for rep st1 y = message_for rep st2 y.
Proof.
  intros Hiff. unfold message_for.
  destruct (decide (y ∈ test_mode_users st1)), (decide (y ∈ test_mode_users st2)); tauto.
Qed.

Lemma attempt_tier plat rep st1 st2 y :
  (y ∈ test_mode_users st1 <-> y ∈ test_mode_users st2) ->
  attempt plat rep st1 y = attempt plat rep st2 y.
Proof. intros H. unfold attempt. by rewrite (message_for_tier rep st1 st2 y H). Qed.

Lemma delivery_tier plat rep st1 st2 y :
  (y ∈ test_mode_users st1 <-> y ∈ test_mode_users st2) ->
  delivery plat rep st1 y = delivery plat rep st2 y.
Proof. intros H. unfold delivery. by rewrite (message_for_tier rep st1 st2 y H). Qed.

Lemma sent_to_app y out1 out2 : sent_to y (out1 ++ out2) = sent_to y out1 ++ sent_to y out2.
Proof. apply omap_app. Qed.

Lemma sent_to_cons y x m out :
  sent_to y ((x, m) :: out) = if decide (x = y) then m :: sent_to y out else sent_to y out.
Proof. unfold sent_to; simpl. by destruct (decide (x = y)). Qed.

Lemma sent_to_same y msgs : sent_to y (map (pair y) msgs) = msgs.
Proof.
  induction msgs as [|m msgs IH]; [done|].
  cbn [map]. rewrite sent_to_cons, decide_True by done. by rewrite IH.
Qed.

Lemma sent_to_other x y msgs : x <> y -> sent_to y (map (pair x) msgs) = [].
Proof.
  intros Hne. induction msgs as [|m msgs IH]; [done|].
  cbn [map]. by rewrite sent_to_cons, decide_False by done.
Qed.

Lemma discard_user_other x y st :
  x <> y ->
  (y ∈ subscribed_users (discard_user x st) <-> y ∈ subscribed_users st) /\
  (y ∈ test_mode_users (discard_user x st) <-> y ∈ test_mode_users st).
Proof. intros Hne. unfold discard_user; simpl. set_solver. Qed.

(** The calls a pass makes to one recipient: those already in the outbox,
    then the recipient's own attempt if the snapshot lists it. *)
Lemma dispatch_sent_to plat rep snapshot :
  NoDup snapshot ->
  forall st out y,
    sent_to y (dispatch plat rep snapshot (st, out)).2 =
    sent_to y out ++ (if decide (y ∈ snapshot) then attempt plat rep st y else []).
Proof.
  unfold dispatch. induction 1 as [|x l Hx Hl IH]; intros st out y; cbn [fold_left].
  - simpl. by rewrite app_nil_r.
  - rewrite notify_user_spec, IH, sent_to_app, <- app_assoc. f_equal.
    destruct (decide (y = x)) as [->|Hne].
    + rewrite sent_to_same. rewrite (decide_True (P := x ∈ x :: l)) by apply list_elem_of_here.
      rewrite (decide_False (P := x ∈ l)) by done. by rewrite app_nil_r.
    + rewrite sent_to_other by done. simpl.
      destruct (decide (y ∈ l)) as [Hin|Hnin].
      * rewrite (decide_True (P := y ∈ x :: l)) by by apply list_elem_of_further.
        apply attempt_tier.
        destruct (is_forbidden _); [|done]. by apply discard_user_other.
      * rewrite (decide_False (P := y ∈ x :: l)); [done|].
        intros [?|?]%elem_of_cons; done.
Qed.

(** The store after a pass: a user is gone from both sets exactly when the
    snapshot listed the user and the user's [try] block raised [Forbidden]. *)
Lemma dispatch_store plat rep snapshot :
  NoDup snapshot ->
  forall st out y,
    let st' := (dispatch plat rep snapshot (st, out)).1 in
    let dropped := y ∈ snapshot /\ is_forbidden (delivery plat rep st y) = true in
    (y ∈ subscribed_users st' <-> y ∈ subscribed_users st /\ ~ dropped) /\
    (y ∈ test_mode_users st' <-> y ∈ test_mode_users st /\ ~ dropped).
Proof.
  unfold dispatch. induction 1 as [|x l Hx Hl IH]; intros st out y; cbn [fold_left].
  - simpl. set_solver.
  - rewrite notify_user_spec. specialize (IH
      (if is_forbidden (delivery plat rep st x) then discard_user x st else st)
      (out ++ map (pair x) (attempt plat rep st x)) y).
    simpl in IH. destruct IH as [IH1 IH2]. rewrite IH1, IH2. clear IH1 IH2.
    destruct (decide (y = x)) as [->|Hne].
    + destruct (is_forbidden (delivery plat rep st x)) eqn:Hf.
      * unfold discard_user; simpl. set_solver.
      * rewrite Hf. set_solver.
    + assert (delivery plat rep
                (if is_forbidden (delivery plat rep st x) then discard_user x st else st) y
              = delivery plat rep st y) as ->.
      { apply delivery_tier. destruct (is_forbidden _); [|done].
        by apply discard_user_other. }
      destruct (is_forbidden (delivery plat rep st x)).
      * destruct (discard_user_other x y st) as [-> ->]; [done|]. set_solver.
      * set_solver.
Qed.

(** A pass that is not skipped checks the links and serves the snapshot. *)
Lemma cycle_served net plat links st st' out u :
  cycle net plat links st = Done (st', out) ->
  u ∈ subscribed_users st ->
  exists rs,
    check_all net links = Done rs /\
    (st', out) = dispatch plat (fold_left record rs empty_report)
                   (elements (subscribed_users st)) (st, []).
Proof.
  unfold cycle. intros Hc Hu.
  destruct (decide (subscribed_users st = ∅)) as [He|_]; [set_solver|].
  rewrite check_links_check_all in Hc.
  destruct (check_all net links) as [rs| |]; simpl in Hc; [|done..].
  exists rs. split; [done|]. by injection Hc.
Qed.

(** With no silent server the pass completes. *)
Lemma cycle_completes net plat links st :
  Forall (responsive net) links -> exists s, cycle net plat links st = Done s.
Proof.
  intros Hr. unfold cycle. destruct (decide (subscribed_users st = ∅)); [by eexists|].
  rewrite check_links_check_all.
  destruct (check_all_responsive net links Hr) as [rs ->]. by eexists.
Qed.

(** Lines of results in different states are different strings. *)
Lemma shape_detail_state n1 u1 r1 n2 u2 r2 :
  result_shape n1 u1 r1 -> result_shape n2 u2 r2 ->
  detail r1 = detail r2 -> state r1 = state r2.
Proof.
  intros [] []; cbn [detail state]; try done; intros Heq; exfalso;
    first
      [ apply (f_equal last_char) in Heq;
        rewrite ?last_char_full_line, ?last_char_slot_line in Heq; discriminate Heq
      | unfold full_line, slot_line, error_line in Heq; simpl in Heq; discriminate Heq ].
Qed.

Lemma check_all_elem_shape net links rs r :
  check_all net links = Done rs -> r ∈ rs -> exists n u, result_shape n u r.
Proof.
  intros Hall%check_all_shape Hr. induction Hall as [|item r' links rs Hs _ IH].
  - by apply elem_of_nil in Hr.
  - apply elem_of_cons in Hr as [->|Hr]; eauto.
Qed.

Lemma slot_found_spec rep : slot_found rep = true <-> slot_available_links rep <> [].
Proof.
  unfold slot_found. rewrite bool_decide_eq_true.
  destruct (slot_available_links rep); simpl; split; try done; lia.
Qed.

(** C3: a pass over responsive servers completes, and in every completed
    pass a subscriber outside test mode is sent nothing when no result is
    AVAILABLE; when some result is AVAILABLE and Discord returns the user,
    exactly one message is sent (and received when the send goes through):
    the slot header followed by the detail lines of the AVAILABLE results, in
    registry order.  Every message sent to such a subscriber is that one, at
    most one is sent, and no line of a FULL or UNREACHABLE result is among
    its lines. *)
Theorem normal_tier_gets_slots_only (net : Network) (plat : Platform)
    (links : list (string * string)) (st : Store) (u : Z) :
  u ∈ subscribed_users st ->
  u ∉ test_mode_users st ->
  (Forall (responsive net) links -> exists s, cycle net plat links st = Done s) /\
  forall st' out,
    cycle net plat links st = Done (st', out) ->
    exists rs,
      check_all net links = Done rs /\
      let available := map detail (filter (fun r => state r = AVAILABLE) rs) in
      let body := "--- :tada: Slot Available! ---" +:+ NL +:+ join NL available in
      (available = [] -> sent_to u out = []) /\
      (available <> [] -> lookup plat u = Returns true -> sent_to u out = [body]) /\
      (available <> [] -> lookup plat u = Returns true ->
         send plat (mkUser u) body = Returns tt -> received plat u out = [body]) /\
      (forall msg, msg ∈ sent_to u out -> msg = body) /\
      (length (sent_to u out) <= 1)%nat /\
      (forall r, r ∈ rs -> state r <> AVAILABLE -> detail r ∉ available).
Proof.
  intros Hu Hn. split; [apply cycle_completes|]. intros st' out Hc.
  destruct (cycle_served _ _ _ _ _ _ u Hc Hu) as (rs & Hall & Hd).
  exists rs. split; [done|]. intros available body.
  set (rep := fold_left record rs empty_report) in Hd.
  assert (slot_available_links rep = available) as Hslots
    by (unfold rep; by rewrite fold_record_slots).
  assert (sent_to u out = attempt plat rep st u) as Hsent.
  { replace out with (st', out).2 by done. rewrite Hd.
    rewrite dispatch_sent_to by apply NoDup_elements. simpl.
    by rewrite decide_True by by apply elem_of_elements. }
  assert (message_for rep st u = if slot_found rep then Some body else None) as Hmsg.
  { unfold message_for. rewrite decide_False by done.
    unfold body, slot_notification, SLOT_HEADER. by rewrite Hslots. }
  assert (available = [] -> sent_to u out = []) as H0.
  { intros He. rewrite Hsent. unfold attempt. rewrite Hmsg.
    destruct (slot_found rep) eqn:Hf; [|by destruct (lookup plat u) as [[]|]].
    apply slot_found_spec in Hf. congruence. }
  assert (available <> [] -> lookup plat u = Returns true -> sent_to u out = [body]) as H1.
  { intros Hne Hl. rewrite Hsent. unfold attempt. rewrite Hl, Hmsg.
    destruct (slot_found rep) eqn:Hf; [done|].
    exfalso. apply Hne. rewrite <- Hslots.
    destruct (slot_available_links rep) eqn:E; [done|].
    assert (slot_found rep = true) by (apply slot_found_spec; congruence). congruence. }
  split; [exact H0|]. split; [exact H1|]. split; [|split; [|split]].
  - intros Hne Hl Hs. unfold received. rewrite (H1 Hne Hl). simpl.
    unfold accepted. by rewrite Hs.
  - intros msg. rewrite Hsent. unfold attempt. rewrite Hmsg.
    destruct (lookup plat u) as [[]|]; simpl; try by intros ?%elem_of_nil.
    destruct (slot_found rep); simpl; [|by intros ?%elem_of_nil].
    by intros ->%list_elem_of_singleton.
  - rewrite Hsent. unfold attempt. rewrite Hmsg.
    destruct (lookup plat u) as [[]|]; simpl; try lia.
    destruct (slot_found rep); simpl; lia.
  - intros r Hr Hst (r' & Hdet & [Hst' Hr']%list_elem_of_filter)%list_elem_of_fmap.
    destruct (check_all_elem_shape _ _ _ r Hall Hr) as (n & x & Hs).
    destruct (check_all_elem_shape _ _ _ r' Hall Hr') as (n' & x' & Hs').
    apply Hst. rewrite <- Hst'. by eapply shape_detail_state.
Qed.

(** C4: a pass over responsive servers completes, and in every completed
    pass a subscriber in test mode is sent the status digest whatever the
    results are: the status header followed by the detail line of every
    result, in registry order.  At most one message is sent; exactly one when
    Discord returns the user, and it is received when the send goes
    through. *)
Theorem verbose_tier_gets_digest (net : Network) (plat : Platform)
    (links : list (string * string)) (st : Store) (u : Z) :
  u ∈ subscribed_users st ->
  u ∈ test_mode_users st ->
  (Forall (responsive net) links -> exists s, cycle net plat links st = Done s) /\
  forall st' out,
    cycle net plat links st = Done (st', out) ->
    exists rs,
      check_all net links = Done rs /\
      Forall2 (fun item r => result_shape item.1 item.2 r) links rs /\
      let body := "--- Test Mode Status Update ---" +:+ NL +:+ join NL (map detail rs) in
      (lookup plat u = Returns true -> sent_to u out = [body]) /\
      (lookup plat u = Returns true -> send plat (mkUser u) body = Returns tt ->
         received plat u out = [body]) /\
      (forall msg, msg ∈ sent_to u out -> msg = body) /\
      (length (sent_to u out) <= 1)%nat.
Proof.
  intros Hu Ht. split; [apply cycle_completes|]. intros st' out Hc.
  destruct (cycle_served _ _ _ _ _ _ u Hc Hu) as (rs & Hall & Hd).
  exists rs. split; [done|]. split; [by apply (check_all_shape net)|]. intros body.
  set (rep := fold_left record rs empty_report) in Hd.
  assert (full_update_message rep = body) as Hbody.
  { unfold full_update_message, body, rep, STATUS_HEADER. by rewrite fold_record_all. }
  assert (sent_to u out = attempt plat rep st u) as Hsent.
  { replace out with (st', out).2 by done. rewrite Hd.
    rewrite dispatch_sent_to by apply NoDup_elements. simpl.
    by rewrite decide_True by by apply elem_of_elements. }
  assert (message_for rep st u = Some body) as Hmsg.
  { unfold message_for. rewrite decide_True by done. by rewrite Hbody. }
  rewrite Hsent. unfold received. rewrite Hsent. unfold attempt. rewrite Hmsg.
  split; [by intros ->|]. split.
  - intros -> Hs. simpl. unfold accepted. by rewrite Hs.
  - destruct (lookup plat u) as [[]|]; simpl; (split; [|lia]).
    + by intros msg ->%list_elem_of_singleton.
    + by intros msg ?%elem_of_nil.
    + by intros msg ?%elem_of_nil.
Qed.

(** The [except discord.errors.Forbidden] clause at the failing recipient. *)
Lemma notify_user_forbidden plat rep st out x msg :
  lookup plat x = Returns true ->
  message_for rep st x = Some msg ->
  send plat (mkUser x) msg = Raises Forbidden ->
  notify_user plat rep (st, out) x = (discard_user x st, out ++ [(x, msg)]).
Proof.
  intros Hl Hm Hs. rewrite notify_user_spec. unfold delivery, attempt.
  by rewrite Hl, Hm, Hs.
Qed.

(** C5: when [user.send] to subscriber [x] raises [Forbidden] during a pass,
    the loop body for [x] ends with [x] discarded from both sets, the pass
    itself returns, [x] is in neither set afterwards, and every other
    subscriber of the snapshot is served as the loop body serves it: the send
    picked by its tier is made whenever Discord returns the user. *)
Theorem forbidden_recipient_is_dropped (plat : Platform) (rep : Report) (st : Store)
    (x : Z) (msg : string) :
  x ∈ subscribed_users st ->
  lookup plat x = Returns true ->
  message_for rep st x = Some msg ->
  send plat (mkUser x) msg = Raises Forbidden ->
  let s' := dispatch plat rep (elements (subscribed_users st)) (st, []) in
  (forall out, notify_user plat rep (st, out) x = (discard_user x st, out ++ [(x, msg)])) /\
  (forall net links, check_links net links empty_report = Done rep ->
     cycle net plat links st = Done s') /\
  (x ∉ subscribed_users (s'.1)) /\
  (x ∉ test_mode_users (s'.1)) /\
  sent_to x (s'.2) = [msg] /\
  (forall y, y ∈ subscribed_users st -> y <> x ->
     sent_to y (s'.2) = attempt plat rep st y) /\
  (forall y m, y ∈ subscribed_users st -> y <> x ->
     lookup plat y = Returns true -> message_for rep st y = Some m ->
     sent_to y (s'.2) = [m]).
Proof.
  intros Hx Hl Hm Hs s'.
  assert (is_forbidden (delivery plat rep st x) = true) as Hf
    by (unfold delivery; by rewrite Hl, Hm, Hs).
  pose proof (NoDup_elements (subscribed_users st)) as Hnd.
  assert (forall y, y ∈ subscribed_users st -> sent_to y (s'.2) = attempt plat rep st y) as Hsent.
  { intros y Hy. unfold s'. rewrite dispatch_sent_to by done. simpl.
    by rewrite decide_True by by apply elem_of_elements. }
  destruct (dispatch_store plat rep _ Hnd st [] x) as [H1 H2].
  split; [intros out; by apply notify_user_forbidden|]. split; [|split; [|split; [|split; [|split]]]].
  - intros net links Hrep. unfold cycle.
    destruct (decide (subscribed_users st = ∅)); [set_solver|]. by rewrite Hrep.
  - intros [_ Hd]%H1. apply Hd. split; [by apply elem_of_elements | done].
  - intros [_ Hd]%H2. apply Hd. split; [by apply elem_of_elements | done].
  - rewrite Hsent by done. unfold attempt. by rewrite Hl, Hm.
  - intros y Hy _. by apply Hsent.
  - intros y m Hy _ Hly Hmy. rewrite Hsent by done. unfold attempt. by rewrite Hly, Hmy.
Qed.

(** ** The store *)

Lemma discard_user_ok user_id st : store_ok st -> store_ok (discard_user user_id st).
Proof. unfold store_ok, discard_user; simpl. set_solver. Qed.

Lemma notify_ok ctx st : store_ok st -> store_ok (notify ctx st).1.
Proof.
  unfold store_ok, notify. destruct (negb _); [done|].
  destruct (decide _); simpl; set_solver.
Qed.

Lemma test_mode_ok ctx st : store_ok st -> store_ok (test_mode ctx st).1.
Proof.
  unfold store_ok, test_mode. destruct (negb _); [done|].
  destruct (decide (author_id ctx ∉ subscribed_users st)) as [|Hin]; [done|].
  apply dec_stable in Hin. destruct (decide _); simpl; set_solver.
Qed.

Lemma stop_ok ctx st : store_ok st -> store_ok (stop ctx st).1.
Proof.
  unfold stop. destruct (negb _); [done|].
  destruct (decide _); simpl; [apply discard_user_ok | done].
Qed.

Lemma dispatch_ok plat rep snapshot st out :
  store_ok st -> store_ok (dispatch plat rep snapshot (st, out)).1.
Proof.
  unfold dispatch. revert st out.
  induction snapshot as [|x l IH]; intros st out Hok; cbn [fold_left]; [done|].
  rewrite notify_user_spec. apply IH.
  destruct (is_forbidden _); [by apply discard_user_ok | done].
Qed.

Lemma apply_op_ok op st : store_ok st -> store_ok (apply_op op st).
Proof.
  intros Hok. destruct op; simpl;
    [by apply notify_ok | by apply test_mode_ok | by apply stop_ok | by apply discard_user_ok].
Qed.

(** From the empty store, every store reached by the operations is fine. *)
Lemma reachable_store_ok (ops : list Op) :
  store_ok (fold_left (fun st op => apply_op op st) ops empty_store).
Proof.
  assert (forall st, store_ok st ->
            store_ok (fold_left (fun st op => apply_op op st) ops st)) as H.
  { induction ops as [|op ops IH]; intros st Hok; simpl; [done|].
    by apply IH, apply_op_ok. }
  apply H. unfold store_ok, empty_store; simpl. set_solver.
Qed.

(** C6: each operation that writes the store (the handlers of [notify],
    [test-mode] and [stop], and the dispatch loop's removal after
    [Forbidden]) keeps [test_mode_users] inside [subscribed_users]; so does a
    whole dispatch pass. *)
Theorem store_invariant_preserved (op : Op) (st : Store) :
  store_ok st ->
  store_ok (apply_op op st) /\
  forall plat rep snapshot out, store_ok (dispatch plat rep snapshot (st, out)).1.
Proof.
  intros Hok. split; [by apply apply_op_ok|]. intros. by apply dispatch_ok.
Qed.

(** C7: [test-mode] from an author who is not subscribed changes neither
    set; in a direct-message channel the handler answers with the
    subscribe-first text and nothing else. *)
Theorem test_mode_requires_subscription (ctx : Context) (st : Store) :
  author_id ctx ∉ subscribed_users st ->
  (test_mode ctx st).1 = st /\
  (channel_is_dm ctx = true ->
   test_mode ctx st =
   (st, ["You need to subscribe first! Type `testflight>notify` to begin."])).
Proof.
  intros Hn. unfold test_mode. destruct (channel_is_dm ctx); simpl.
  - rewrite decide_True by done. done.
  - done.
Qed.

(** C9 (as the code has it): outside a direct-message channel none of the
    three handlers changes the store; [notify] answers with the
    direct-messages-only text, [test-mode] and [stop] answer nothing. *)
Theorem group_context_is_rejected (ctx : Context) (st : Store) :
  channel_is_dm ctx = false ->
  notify ctx st = (st, ["This command only works in my DMs! Please message me directly."]) /\
  test_mode ctx st = (st, []) /\
  stop ctx st = (st, []).
Proof. intros H. unfold notify, test_mode, stop. by rewrite H. Qed.

(** C10: in a direct-message channel, [test-mode] from a subscribed author
    flips the author's membership in [test_mode_users] and touches nothing
    else; a second [test-mode] flips it back and the store is the one before
    the first. *)
Theorem test_mode_twice_is_identity (ctx : Context) (st : Store) :
  channel_is_dm ctx = true ->
  author_id ctx ∈ subscribed_users st ->
  let u := author_id ctx in
  let st1 := (test_mode ctx st).1 in
  let st2 := (test_mode ctx st1).1 in
  st2 = st /\
  (u ∈ test_mode_users st1 <-> u ∉ test_mode_users st) /\
  (u ∈ test_mode_users st2 <-> u ∉ test_mode_users st1) /\
  subscribed_users st1 = subscribed_users st /\
  (forall y, y <> u -> (y ∈ test_mode_users st1 <-> y ∈ test_mode_users st)).
Proof.
  intros Hdm Hin u st1 st2. subst st2 st1 u. unfold test_mode. rewrite Hdm. simpl.
  destruct st as [subs tm]; simpl in *.
  destruct (decide (author_id ctx ∉ subs)) as [|_]; [done|].
  destruct (decide (author_id ctx ∈ tm)) as [Ht|Ht]; simpl;
    (destruct (decide (author_id ctx ∉ subs)) as [|_]; [done|]).
  - destruct (decide (author_id ctx ∈ tm ∖ {[author_id ctx]})) as [Hx|_]; [set_solver|].
    simpl. split; [|set_solver]. f_equal. apply set_eq. intros y.
    destruct (decide (y = author_id ctx)); set_solver.
  - destruct (decide (author_id ctx ∈ {[author_id ctx]} ∪ tm)) as [_|Hx]; [|set_solver].
    simpl. split; [|set_solver]. f_equal. set_solver.
Qed.

(** * Worked examples *)

Example demo_links : check_links demo_net TESTFLIGHT_LINKS empty_report = Done demo_report.
Proof. vm_compute. reflexivity. Qed.

Example demo_cycle :
  cycle demo_net demo_plat TESTFLIGHT_LINKS demo_store =
  Done (discard_user 2 demo_store, demo_outbox).
Proof. vm_compute. reflexivity. Qed.

Example full_cycle :
  cycle full_net demo_plat TESTFLIGHT_LINKS (mkStore {[1]} ∅) = Done (mkStore {[1]} ∅, []).
Proof. vm_compute. reflexivity. Qed.

(** Group A is full and Group B is open on [demo_net]. *)
Lemma marker_decides_state_witness :
  check demo_net "Group A" URL_A = Done (mkResult "Group A" URL_A FULL "**Group A**: Full.") /\
  exists line,
    check demo_net "Group B" URL_B = Done (mkResult "Group B" URL_B AVAILABLE line) /\
    occurs URL_B line.
Proof.
  split.
  - apply (marker_decides_state demo_net "Group A" URL_A (page FULL_PAGE));
      [reflexivity | reflexivity | apply contains_true_iff; reflexivity].
  - destruct (marker_decides_state demo_net "Group B" URL_B (page OPEN_PAGE))
      as (_ & _ & Hopen); [reflexivity | reflexivity |].
    destruct Hopen as (line & Hc & _ & Hurl & _); [apply contains_false_iff; reflexivity|].
    exists line. split; [exact Hc | exact Hurl].
Defined.

(** Group C refuses the connection and Group D answers 503 on [demo_net];
    the loop still reports all five groups. *)
Lemma fetch_failure_is_unreachable_witness :
  fetch_failure demo_net URL_C "Connection refused" /\
  check demo_net "Group C" URL_C = Done (mkResult "Group C" URL_C UNREACHABLE LINE_C) /\
  check demo_net "Group D" URL_D = Done (mkResult "Group D" URL_D UNREACHABLE LINE_D) /\
  exists rep, check_links demo_net TESTFLIGHT_LINKS empty_report = Done rep /\
              length (all_status_messages rep) = 5%nat.
Proof.
  assert (fetch_failure demo_net URL_C "Connection refused") as Hf
    by (apply transport_error; reflexivity).
  destruct (fetch_failure_is_unreachable demo_net "Group C" URL_C "Connection refused" Hf)
    as (Hc & _ & _ & _ & Hall).
  split; [exact Hf|]. split; [exact Hc|]. split.
  { apply (fetch_failure_is_unreachable demo_net "Group D" URL_D
             "503 Server Error: Service Unavailable for url: https://testflight.apple.com/join/T6qKfV6f").
    apply (http_error demo_net URL_D (mkResponse 503 "Service Unavailable" ""));
      [reflexivity | vm_compute; reflexivity]. }
  destruct (Hall (firstn 2 TESTFLIGHT_LINKS) (skipn 3 TESTFLIGHT_LINKS))
    as (rs1 & rs2 & rep & H1 & H2 & _ & Hrep & Hlines).
  { repeat constructor; vm_compute; discriminate. }
  exists rep. split; [exact Hrep|]. rewrite Hlines.
  vm_compute in H1, H2. injection H1 as <-. injection H2 as <-. reflexivity.
Defined.

(** On [silent_net] the loop stops at Group C. *)
Lemma silent_target_blocks_pass_witness :
  silent_net URL_C = Silent /\
  check_links silent_net TESTFLIGHT_LINKS empty_report = Blocks.
Proof.
  split; [reflexivity|].
  apply (silent_target_blocks_pass silent_net
           (firstn 2 TESTFLIGHT_LINKS) (skipn 3 TESTFLIGHT_LINKS) "Group C" URL_C);
    [repeat constructor; vm_compute; discriminate | reflexivity].
Defined.

(** C8, as stated, fails: the request of the loop has no timeout, and with
    a server that never answers Group C the pass never returns. *)
Lemma fetch_has_no_timeout :
  req_timeout (link_request URL_C) = None /\
  requests_get silent_net (link_request URL_C) = Blocks /\
  check_links_and_notify_pass silent_net demo_plat demo_store = Blocks.
Proof. split; [reflexivity|]. split; [reflexivity|]. vm_compute. reflexivity. Qed.

(** User 1 is outside test mode: one slot message on [demo_net], none when
    every group is full. *)
Lemma normal_tier_gets_slots_only_witness :
  sent_to 1 demo_outbox = [demo_slots] /\
  received demo_plat 1 demo_outbox = [demo_slots] /\
  forall out, cycle full_net demo_plat TESTFLIGHT_LINKS (mkStore {[1]} ∅) =
              Done (mkStore {[1]} ∅, out) -> sent_to 1 out = [].
Proof.
  destruct (normal_tier_gets_slots_only demo_net demo_plat TESTFLIGHT_LINKS demo_store 1)
    as [_ Hserved]; [vm_compute; reflexivity | vm_compute; discriminate |].
  destruct (Hserved (discard_user 2 demo_store) demo_outbox)
    as (rs & Hall & _ & H1 & H2 & _); [vm_compute; reflexivity|].
  vm_compute in Hall. injection Hall as <-.
  split; [apply H1; [discriminate | reflexivity]|].
  split; [apply H2; [discriminate | reflexivity | reflexivity]|].
  intros out Hout.
  destruct (normal_tier_gets_slots_only full_net demo_plat TESTFLIGHT_LINKS
              (mkStore {[1]} ∅) 1)
    as [_ Hfull]; [vm_compute; reflexivity | vm_compute; discriminate |].
  destruct (Hfull (mkStore {[1]} ∅) out Hout) as (rs & Hall & H0 & _).
  vm_compute in Hall. injection Hall as <-. apply H0. reflexivity.
Defined.

(** A user in test mode is sent the digest, also when every group is full. *)
Lemma verbose_tier_gets_digest_witness :
  sent_to 2 demo_outbox = [demo_digest] /\
  forall out, cycle full_net demo_plat TESTFLIGHT_LINKS (mkStore {[1]} {[1]}) =
              Done (mkStore {[1]} {[1]}, out) -> length (sent_to 1 out) = 1%nat.
Proof.
  destruct (verbose_tier_gets_digest demo_net demo_plat TESTFLIGHT_LINKS demo_store 2)
    as [_ Hserved]; [vm_compute; reflexivity | vm_compute; reflexivity |].
  destruct (Hserved (discard_user 2 demo_store) demo_outbox)
    as (rs & Hall & _ & H1 & _); [vm_compute; reflexivity|].
  vm_compute in Hall. injection Hall as <-.
  split; [apply H1; reflexivity|].
  intros out Hout.
  destruct (verbose_tier_gets_digest full_net demo_plat TESTFLIGHT_LINKS
              (mkStore {[1]} {[1]}) 1)
    as [_ Hfull]; [vm_compute; reflexivity | vm_compute; reflexivity |].
  destruct (Hfull (mkStore {[1]} {[1]}) out Hout) as (rs & _ & _ & H1' & _).
  rewrite H1' by reflexivity. reflexivity.
Defined.

(** User 2 has closed direct messages: the pass drops user 2 and still
    serves user 1. *)
Lemma forbidden_recipient_is_dropped_witness :
  let s' := dispatch demo_plat demo_report (elements (subscribed_users demo_store))
              (demo_store, []) in
  send demo_plat (mkUser 2) demo_digest = Raises Forbidden /\
  (2 ∉ subscribed_users (s'.1)) /\
  (2 ∉ test_mode_users (s'.1)) /\
  sent_to 1 (s'.2) = [demo_slots].
Proof.
  destruct (forbidden_recipient_is_dropped demo_plat demo_report demo_store 2 demo_digest)
    as (_ & _ & Hs & Ht & _ & _ & Hothers);
    [vm_compute; reflexivity | reflexivity | vm_compute; reflexivity | reflexivity |].
  split; [reflexivity|]. split; [exact Hs|]. split; [exact Ht|].
  apply Hothers; [vm_compute; reflexivity | discriminate | reflexivity | vm_compute; reflexivity].
Defined.

(** [demo_store] is fine, and stays fine after [test-mode] and after a
    removal. *)
Lemma store_invariant_preserved_witness :
  store_ok demo_store /\
  store_ok (apply_op (OpTestMode (mkContext true 1 "one")) demo_store) /\
  store_ok (apply_op (OpForbidden 2) demo_store).
Proof.
  assert (store_ok demo_store) as Hok.
  { unfold store_ok, demo_store. cbn [test_mode_users subscribed_users].
    intros y Hy. apply elem_of_singleton in Hy as ->.
    apply elem_of_union_l, elem_of_union_r, elem_of_singleton. reflexivity. }
  split; [exact Hok|]. split.
  - apply (store_invariant_preserved (OpTestMode (mkContext true 1 "one")) demo_store Hok).
  - apply (store_invariant_preserved (OpForbidden 2) demo_store Hok).
Defined.

(** User 9 is not subscribed. *)
Lemma test_mode_requires_subscription_witness :
  test_mode (mkContext true 9 "nine") demo_store =
  (demo_store, ["You need to subscribe first! Type `testflight>notify` to begin."]).
Proof.
  apply (test_mode_requires_subscription (mkContext true 9 "nine") demo_store);
    [vm_compute; discriminate | reflexivity].
Defined.

(** [stop] and [notify] from a group channel. *)
Lemma group_context_is_rejected_witness :
  stop (mkContext false 1 "one") demo_store = (demo_store, []) /\
  notify (mkContext false 4 "four") demo_store = (demo_store, [DM_ONLY_MSG]).
Proof.
  split.
  - apply (group_context_is_rejected (mkContext false 1 "one") demo_store). reflexivity.
  - apply (group_context_is_rejected (mkContext false 4 "four") demo_store). reflexivity.
Defined.

(** C9, as stated, fails: in a group channel [stop] and [test-mode] leave
    the store alone but send no guidance; only [notify] does. *)
Lemma group_stop_and_test_mode_are_silent :
  channel_is_dm (mkContext false 1 "one") = false /\
  (stop (mkContext false 1 "one") demo_store).2 = [] /\
  (test_mode (mkContext false 1 "one") demo_store).2 = [] /\
  (notify (mkContext false 1 "one") demo_store).2 = [DM_ONLY_MSG].
Proof. repeat split; reflexivity. Qed.

(** User 1 switches test mode on and off again. *)
Lemma test_mode_twice_is_identity_witness :
  let ctx := mkContext true 1 "one" in
  (test_mode ctx (test_mode ctx demo_store).1).1 = demo_store /\
  (1 ∈ test_mode_users (test_mode ctx demo_store).1).
Proof.
  destruct (test_mode_twice_is_identity (mkContext true 1 "one") demo_store)
    as (Hid & Hflip & _); [reflexivity | vm_compute; reflexivity |].
  split; [exact Hid|]. apply Hflip. vm_compute. discriminate.
Defined.

(** * Further properties of the handlers, the pass and the loop *)

(** ** Commands *)

(** Membership in the two sets after a handler, for the author and for
    everybody else. *)
Ltac handler_cases :=
  repeat match goal with
         | |- context [decide ?P] => destruct (decide P); simpl in *
         | |- context [negb ?b] => destruct b; simpl in *
         end.

Lemma run_command_other c st y :
  y <> author_id (command_ctx c) ->
  (y ∈ subscribed_users (run_command c st).1 <-> y ∈ subscribed_users st) /\
  (y ∈ test_mode_users (run_command c st).1 <-> y ∈ test_mode_users st).
Proof.
  intros Hne. destruct c as [ctx|ctx|ctx|ctx]; simpl in *;
    unfold notify, test_mode, stop, help, discard_user;
    handler_cases; set_solver.
Qed.

Lemma run_command_ok c st : store_ok st -> store_ok (run_command c st).1.
Proof.
  destruct c; simpl; [apply notify_ok | apply test_mode_ok | apply stop_ok |].
  unfold help. by destruct (negb _).
Qed.

Lemma notify_dm_subscribed ctx st :
  channel_is_dm ctx = true -> author_id ctx ∈ subscribed_users (notify ctx st).1.
Proof.
  intros Hdm. unfold notify. rewrite Hdm. simpl.
  destruct (decide (author_id ctx ∈ subscribed_users st)); simpl; set_solver.
Qed.

(** X1: [notify] in a direct-message channel subscribes the author and only
    the author, leaves [test_mode_users] alone, and is idempotent: a second
    [notify] answers "already subscribed" and changes nothing. *)
Theorem notify_subscribes_once (ctx : Context) (st : Store) :
  channel_is_dm ctx = true ->
  let st1 := (notify ctx st).1 in
  author_id ctx ∈ subscribed_users st1 /\
  test_mode_users st1 = test_mode_users st /\
  (forall y, y <> author_id ctx ->
     (y ∈ subscribed_users st1 <-> y ∈ subscribed_users st)) /\
  notify ctx st1 = (st1, ["You are already subscribed!"]) /\
  (author_id ctx ∈ subscribed_users st ->
     notify ctx st = (st, ["You are already subscribed!"])).
Proof.
  intros Hdm st1.
  assert (author_id ctx ∈ subscribed_users st1) as Hin
    by by apply notify_dm_subscribed.
  split; [exact Hin|]. split; [|split; [|split]].
  - subst st1. unfold notify. rewrite Hdm. simpl. by destruct (decide _).
  - intros y Hne. subst st1. unfold notify. rewrite Hdm. simpl.
    destruct (decide _); simpl; set_solver.
  - unfold notify at 1. rewrite Hdm. simpl.
    destruct (decide (author_id ctx ∈ subscribed_users st1)); [done|contradiction].
  - intros Hs. unfold notify. rewrite Hdm. simpl.
    destruct (decide (author_id ctx ∈ subscribed_users st)); [done|contradiction].
Qed.

(** X2: [stop] from a subscribed author in a direct-message channel takes
    the author out of both sets and touches nobody else; a second [stop]
    answers "not currently subscribed" and changes nothing. *)
Theorem stop_unsubscribes (ctx : Context) (st : Store) :
  channel_is_dm ctx = true ->
  author_id ctx ∈ subscribed_users st ->
  let st1 := (stop ctx st).1 in
  stop ctx st = (st1, ["You have been unsubscribed. You will no longer receive updates."]) /\
  (author_id ctx ∉ subscribed_users st1) /\
  (author_id ctx ∉ test_mode_users st1) /\
  (forall y, y <> author_id ctx ->
     (y ∈ subscribed_users st1 <-> y ∈ subscribed_users st) /\
     (y ∈ test_mode_users st1 <-> y ∈ test_mode_users st)) /\
  stop ctx st1 = (st1, ["You are not currently subscribed."]).
Proof.
  intros Hdm Hin st1.
  assert (stop ctx st = (discard_user (author_id ctx) st, [UNSUBSCRIBED_MSG])) as Hstop.
  { unfold stop. rewrite Hdm. simpl.
    destruct (decide (author_id ctx ∈ subscribed_users st)); [done|contradiction]. }
  subst st1. rewrite Hstop. simpl.
  assert (author_id ctx ∉ subscribed_users (discard_user (author_id ctx) st)) as Hout
    by (unfold discard_user; simpl; set_solver).
  split; [done|]. split; [exact Hout|]. split; [unfold discard_user; simpl; set_solver|].
  split; [intros y Hne; by apply discard_user_other|].
  unfold stop. rewrite Hdm. cbn [negb].
  destruct (decide _) as [Hx|_]; [exfalso; apply Hout, Hx | done].
Qed.

(** X3: in a direct-message channel, subscribing and unsubscribing undo each
    other: [notify] then [stop] gives back a well-formed store the author was
    not in, and [stop] then [notify] gives back a store where the author was a
    normal-tier subscriber. *)
Theorem notify_stop_round_trip (ctx : Context) (st : Store) :
  channel_is_dm ctx = true ->
  (store_ok st -> author_id ctx ∉ subscribed_users st ->
     (stop ctx (notify ctx st).1).1 = st) /\
  (author_id ctx ∈ subscribed_users st -> author_id ctx ∉ test_mode_users st ->
     (notify ctx (stop ctx st).1).1 = st).
Proof.
  intros Hdm. destruct st as [subs tm]. unfold store_ok, notify, stop, discard_user.
  rewrite Hdm. simpl. split.
  - intros Hok Hn. destruct (decide (author_id ctx ∈ subs)); [contradiction|]. simpl.
    destruct (decide (author_id ctx ∈ {[author_id ctx]} ∪ subs)) as [_|Hx]; [|set_solver].
    simpl. f_equal; set_solver.
  - intros Hs Hn. destruct (decide (author_id ctx ∈ subs)); [|contradiction]. simpl.
    destruct (decide (author_id ctx ∈ subs ∖ {[author_id ctx]})) as [Hx|_]; [set_solver|].
    simpl. f_equal; [|set_solver].
    apply set_eq. intros y. destruct (decide (y = author_id ctx)); set_solver.
Qed.

(** X4: test mode does not survive an unsubscription: after [stop] and a new
    [notify] in a direct-message channel the author is subscribed and outside
    [test_mode_users], whatever the tier was before. *)
Theorem resubscribe_resets_test_mode (ctx : Context) (st : Store) :
  channel_is_dm ctx = true ->
  store_ok st ->
  let st2 := (notify ctx (stop ctx st).1).1 in
  author_id ctx ∈ subscribed_users st2 /\
  (author_id ctx ∉ test_mode_users st2) /\
  store_ok st2.
Proof.
  intros Hdm Hok st2. subst st2.
  split; [by apply notify_dm_subscribed|]. split; [|by apply notify_ok, stop_ok].
  unfold store_ok in Hok. unfold notify, stop, discard_user. rewrite Hdm. simpl.
  destruct (decide (author_id ctx ∈ subscribed_users st)); simpl;
    destruct (decide _); simpl; set_solver.
Qed.

(** X5: a command changes nobody's membership but its author's, in either
    set and in any channel. *)
Theorem command_touches_only_author (c : Command) (st : Store) (y : Z) :
  y <> author_id (command_ctx c) ->
  (y ∈ subscribed_users (run_command c st).1 <-> y ∈ subscribed_users st) /\
  (y ∈ test_mode_users (run_command c st).1 <-> y ∈ test_mode_users st).
Proof. apply run_command_other. Qed.

(** X6: in a direct-message channel every command is answered with exactly
    one message, and [help] never changes the store. *)
Theorem dm_command_answers_once (c : Command) (st : Store) :
  channel_is_dm (command_ctx c) = true ->
  (exists reply, (run_command c st).2 = [reply]) /\
  (forall ctx, (run_command (CmdHelp ctx) st).1 = st).
Proof.
  intros Hdm. split.
  - destruct c as [ctx|ctx|ctx|ctx]; simpl in *;
      unfold notify, test_mode, stop, help; rewrite Hdm; simpl;
      repeat (destruct (decide _); simpl); by eexists.
  - intros ctx. simpl. unfold help. by destruct (negb _).
Qed.

(** ** One pass *)

(** A pass that returns has served the snapshot; for an empty store the
    snapshot is empty and the report plays no role. *)
Lemma cycle_dispatch net plat links st st' out :
  cycle net plat links st = Done (st', out) ->
  exists rep,
    (subscribed_users st = ∅ \/ check_links net links empty_report = Done rep) /\
    (st', out) = dispatch plat rep (elements (subscribed_users st)) (@pair Store Outbox st []).
Proof.
  unfold cycle. destruct (decide (subscribed_users st = ∅)) as [He|Hne].
  - intros Heq. inversion Heq; subst. exists empty_report. split; [by left|].
    by rewrite He, elements_empty.
  - destruct (check_links net links empty_report) as [rep| |]; simpl; [|done..].
    intros Heq. inversion Heq as [Hpair]. exists rep. split; [by right|]. done.
Qed.

(** The outbox of a pass, user by user in snapshot order. *)
Lemma dispatch_outbox plat rep st snapshot :
  NoDup snapshot ->
  forall st1 out,
    (forall y, y ∈ snapshot -> (y ∈ test_mode_users st1 <-> y ∈ test_mode_users st)) ->
    (dispatch plat rep snapshot (st1, out)).2 =
    out ++ (snapshot ≫= fun y => pair y <$> attempt plat rep st y).
Proof.
  unfold dispatch. induction 1 as [|x l Hx Hl IH]; intros st1 out Hagree; cbn [fold_left].
  - simpl. by rewrite app_nil_r.
  - rewrite notify_user_spec, IH.
    + rewrite <- app_assoc. f_equal. cbn [mbind list_bind]. f_equal.
      f_equal. apply attempt_tier, Hagree, list_elem_of_here.
    + intros y Hy. rewrite <- (Hagree y) by by apply list_elem_of_further.
      destruct (is_forbidden _); [|done].
      apply discard_user_other. intros ->. contradiction.
Qed.

Lemma attempt_length plat rep st y : (length (attempt plat rep st y) <= 1)%nat.
Proof.
  unfold attempt. destruct (lookup plat y) as [[]|]; simpl; try lia.
  destruct (message_for rep st y); simpl; lia.
Qed.

Lemma elem_of_attempt plat rep st y m :
  m ∈ attempt plat rep st y <->
  lookup plat y = Returns true /\
  ((y ∈ test_mode_users st /\ m = full_update_message rep) \/
   ((y ∉ test_mode_users st) /\ slot_available_links rep <> [] /\ m = slot_notification rep)).
Proof.
  unfold attempt, message_for.
  destruct (lookup plat y) as [[]|e]; simpl;
    try (rewrite elem_of_nil; split; [done | by intros [? _]]).
  destruct (decide (y ∈ test_mode_users st)) as [Ht|Ht]; simpl.
  - rewrite list_elem_of_singleton. naive_solver.
  - destruct (slot_found rep) eqn:Hf; simpl.
    + apply slot_found_spec in Hf. rewrite list_elem_of_singleton. naive_solver.
    + rewrite elem_of_nil. split; [done|].
      intros [_ [[? _]|(_ & Hne & _)]]; [done|].
      apply slot_found_spec in Hne. congruence.
Qed.

Lemma bind_length_le {A B} (f : A -> list B) (l : list A) :
  (forall y, length (f y) <= 1)%nat -> (length (l ≫= f) <= length l)%nat.
Proof.
  intros Hf. induction l as [|y l IH]; simpl; [lia|].
  rewrite length_app. specialize (Hf y). unfold mbind in IH. lia.
Qed.

(** X7: a pass writes only to subscribers Discord returns, and only the text
    of their tier: the digest for a user in test mode, the slot notification
    for the others when a slot was found.  Nobody gets two messages, so a
    pass sends at most as many as there are subscribers. *)
Theorem pass_messages_only_subscribers (net : Network) (plat : Platform)
    (links : list (string * string)) (st st' : Store) (out : Outbox) (rep : Report) :
  cycle net plat links st = Done (st', out) ->
  check_links net links empty_report = Done rep ->
  (forall y m,
     (y, m) ∈ out <->
     y ∈ subscribed_users st /\ lookup plat y = Returns true /\
     ((y ∈ test_mode_users st /\ m = full_update_message rep) \/
      ((y ∉ test_mode_users st) /\ slot_available_links rep <> [] /\
       m = slot_notification rep))) /\
  (forall y, length (sent_to y out) <= 1)%nat /\
  (length out <= size (subscribed_users st))%nat.
Proof.
  intros Hc Hrep. destruct (cycle_dispatch _ _ _ _ _ _ Hc) as (rep' & Hcase & Hd).
  pose proof (NoDup_elements (subscribed_users st)) as Hnd.
  assert (out = elements (subscribed_users st) ≫= fun y => pair y <$> attempt plat rep st y)
    as Hout.
  { replace out with (st', out).2 by done. rewrite Hd.
    destruct Hcase as [He|Hrep'].
    - by rewrite He, elements_empty.
    - assert (rep' = rep) as -> by congruence.
      by rewrite (dispatch_outbox plat rep st) by done. }
  split; [|split].
  - intros y m. rewrite Hout, list_elem_of_bind. split.
    + intros (z & Hin & Hz). apply list_elem_of_fmap in Hin as (m' & [= -> ->] & Hm).
      apply elem_of_elements in Hz. apply elem_of_attempt in Hm. tauto.
    + intros (Hy & Hl & Hm). exists y. split; [|by apply elem_of_elements].
      apply list_elem_of_fmap. exists m. split; [done|]. apply elem_of_attempt. tauto.
  - intros y. replace out with (st', out).2 by done. rewrite Hd.
    rewrite dispatch_sent_to by done. simpl.
    destruct (decide _); simpl; [apply attempt_length | lia].
  - rewrite Hout. unfold size, set_size. simpl. apply bind_length_le.
    intros y. rewrite length_fmap. apply attempt_length.
Qed.

Lemma cycle_store net plat links st st' out y :
  cycle net plat links st = Done (st', out) ->
  exists rep,
    (y ∈ subscribed_users st \/ subscribed_users st <> ∅ ->
       check_links net links empty_report = Done rep) /\
    sent_to y out = (if decide (y ∈ subscribed_users st) then attempt plat rep st y else []) /\
    let dropped := y ∈ subscribed_users st /\ is_forbidden (delivery plat rep st y) = true in
    (y ∈ subscribed_users st' <-> y ∈ subscribed_users st /\ ~ dropped) /\
    (y ∈ test_mode_users st' <-> y ∈ test_mode_users st /\ ~ dropped).
Proof.
  intros Hc. destruct (cycle_dispatch _ _ _ _ _ _ Hc) as (rep & Hcase & Hd).
  pose proof (NoDup_elements (subscribed_users st)) as Hnd.
  exists rep. split; [|split].
  - intros Hy. destruct Hcase as [He|]; [|done]. set_solver.
  - replace out with (st', out).2 by done. rewrite Hd.
    rewrite dispatch_sent_to by done. simpl.
    destruct (decide (y ∈ elements (subscribed_users st))) as [Hin|Hin];
      destruct (decide (y ∈ subscribed_users st)) as [Hin'|Hin']; try done;
      apply elem_of_elements in Hin || (exfalso; apply Hin, elem_of_elements, Hin'); done.
  - destruct (dispatch_store plat rep _ Hnd st [] y) as [H1 H2].
    rewrite <- Hd in H1, H2. simpl in H1, H2.
    rewrite elem_of_elements in H1, H2. intros dropped. by subst dropped.
Qed.

(** X8: a pass never adds anybody to either set; who stays subscribed keeps
    the tier; and who is dropped is dropped from both sets, because the
    lookup raised [Forbidden] or because the message sent to that user
    did. *)
Theorem pass_only_removes (net : Network) (plat : Platform)
    (links : list (string * string)) (st st' : Store) (out : Outbox) :
  cycle net plat links st = Done (st', out) ->
  subscribed_users st' ⊆ subscribed_users st /\
  test_mode_users st' ⊆ test_mode_users st /\
  (forall y, y ∈ subscribed_users st' ->
     (y ∈ test_mode_users st' <-> y ∈ test_mode_users st)) /\
  (forall y, y ∈ subscribed_users st -> y ∉ subscribed_users st' ->
     (y ∉ test_mode_users st') /\
     (lookup plat y = Raises Forbidden \/
      exists m, (y, m) ∈ out /\ send plat (mkUser y) m = Raises Forbidden)).
Proof.
  intros Hc. split; [|split; [|split]].
  - intros y. destruct (cycle_store _ _ _ _ _ _ y Hc) as (rep & _ & _ & H1 & _). tauto.
  - intros y. destruct (cycle_store _ _ _ _ _ _ y Hc) as (rep & _ & _ & _ & H2). tauto.
  - intros y. destruct (cycle_store _ _ _ _ _ _ y Hc) as (rep & _ & _ & H1 & H2). tauto.
  - intros y Hy Hgone.
    destruct (cycle_store _ _ _ _ _ _ y Hc) as (rep & _ & Hsent & H1 & H2).
    assert (is_forbidden (delivery plat rep st y) = true) as Hf.
    { destruct (is_forbidden _); [done|]. exfalso. apply Hgone, H1.
      split; [done|]. by intros [_ ?]. }
    split; [intros [_ Hd]%H2; by apply Hd|].
    rewrite decide_True in Hsent by done.
    unfold delivery in Hf. unfold attempt in Hsent.
    destruct (lookup plat y) as [[]|[]]; simpl in Hf; try done; [|by left].
    destruct (message_for rep st y) as [m|]; simpl in *; [|done].
    right. exists m. split.
    + assert (m ∈ sent_to y out) as Hm by (rewrite Hsent; apply list_elem_of_here).
      unfold sent_to in Hm. apply list_elem_of_omap in Hm as ([z m'] & Hin & Hz).
      simpl in Hz. destruct (decide (z = y)) as [->|]; [|done]. by injection Hz as ->.
    + by destruct (send plat (mkUser y) m) as [|[]].
Qed.

(** X9: a failure that is not [Forbidden] costs nobody the subscription: a
    user whose lookup and sends never raise [Forbidden] is in the same sets
    after the pass, and a user Discord does not return is sent nothing. *)
Theorem transient_failure_keeps_subscriber (net : Network) (plat : Platform)
    (links : list (string * string)) (st st' : Store) (out : Outbox) (y : Z) :
  cycle net plat links st = Done (st', out) ->
  lookup plat y <> Raises Forbidden ->
  (forall m, send plat (mkUser y) m <> Raises Forbidden) ->
  (y ∈ subscribed_users st' <-> y ∈ subscribed_users st) /\
  (y ∈ test_mode_users st' <-> y ∈ test_mode_users st) /\
  (lookup plat y <> Returns true -> sent_to y out = []).
Proof.
  intros Hc Hl Hs. destruct (cycle_store _ _ _ _ _ _ y Hc) as (rep & _ & Hsent & H1 & H2).
  assert (is_forbidden (delivery plat rep st y) = false) as Hf.
  { unfold delivery. destruct (lookup plat y) as [[]|[]]; try done.
    destruct (message_for rep st y) as [m|]; [|done].
    specialize (Hs m). by destruct (send plat (mkUser y) m) as [|[]]. }
  rewrite Hf in H1, H2. split; [|split].
  - rewrite H1. split; [tauto|]. intros ?. split; [done|]. by intros [_ ?].
  - rewrite H2. split; [tauto|]. intros ?. split; [done|]. by intros [_ ?].
  - intros Hno. rewrite Hsent. destruct (decide _); [|done].
    unfold attempt. by destruct (lookup plat y) as [[]|].
Qed.

(** X10: [Forbidden] raised by the lookup itself also drops the user: the
    subscriber is in neither set after the pass and was sent nothing. *)
Theorem forbidden_lookup_drops_without_send (net : Network) (plat : Platform)
    (links : list (string * string)) (st st' : Store) (out : Outbox) (x : Z) :
  cycle net plat links st = Done (st', out) ->
  x ∈ subscribed_users st ->
  lookup plat x = Raises Forbidden ->
  (x ∉ subscribed_users st') /\ (x ∉ test_mode_users st') /\ sent_to x out = [].
Proof.
  intros Hc Hx Hl. destruct (cycle_store _ _ _ _ _ _ x Hc) as (rep & _ & Hsent & H1 & H2).
  assert (is_forbidden (delivery plat rep st x) = true) as Hf
    by (unfold delivery; by rewrite Hl).
  split; [|split].
  - intros [_ Hd]%H1. by apply Hd.
  - intros [_ Hd]%H2. by apply Hd.
  - rewrite Hsent, decide_True by done. unfold attempt. by rewrite Hl.
Qed.

(** ** The link loop, line by line *)

Lemma length_append (s t : string) :
  String.length (s +:+ t) = (String.length s + String.length t)%nat.
Proof. induction s as [|c s IH]; simpl; [done | by rewrite IH]. Qed.

Lemma occurs_length needle hay :
  occurs needle hay -> (String.length needle <= String.length hay)%nat.
Proof. intros (a & b & ->). rewrite !length_append. lia. Qed.

Lemma shape_names name url r :
  result_shape name url r -> occurs ("**" +:+ name +:+ "**") (detail r).
Proof.
  intros []; cbn [detail].
  - exists "", ": Full.". unfold full_line. simpl. by rewrite !append_assoc.
  - exists "", (": :tada: THERE IS A SLOT! <" +:+ url +:+ ">").
    unfold slot_line. simpl. by rewrite !append_assoc.
  - exists "Could not check status for ", (". Error: " +:+ cause).
    unfold error_line. by rewrite !append_assoc.
Qed.

Lemma slot_details_sublist rs :
  map detail (filter (fun r => state r = AVAILABLE) rs) `sublist_of` map detail rs.
Proof.
  induction rs as [|r rs IH]; simpl; [constructor|].
  rewrite filter_cons. destruct (decide (state r = AVAILABLE)); simpl.
  - by apply sublist_skip.
  - by apply sublist_cons.
Qed.

(** X11: when the link loop returns, the status list has one line per
    registry entry, in registry order, each naming its entry in bold; the
    slot list is a sub-sequence of the status list, and each of its lines is
    the slot line of a registry entry. *)
Theorem one_line_per_link (net : Network) (links : list (string * string)) (rep : Report) :
  check_links net links empty_report = Done rep ->
  length (all_status_messages rep) = length links /\
  Forall2 (fun item line => occurs ("**" +:+ item.1 +:+ "**") line)
          links (all_status_messages rep) /\
  slot_available_links rep `sublist_of` all_status_messages rep /\
  Forall (fun line => exists item, item ∈ links /\ line = slot_line item.1 item.2)
         (slot_available_links rep).
Proof.
  rewrite check_links_check_all.
  destruct (check_all net links) as [rs| |] eqn:Hall; simpl; [|done..].
  intros [= <-]. rewrite fold_record_all, fold_record_slots. simpl.
  apply check_all_shape in Hall.
  split; [|split; [|split]].
  - rewrite length_map. symmetry. by eapply Forall2_length.
  - induction Hall as [|item r links rs Hs _ IH]; simpl; constructor; [|done].
    by eapply shape_names.
  - apply slot_details_sublist.
  - induction Hall as [|item r links rs Hs _ IH]; simpl; [constructor|].
    assert (Forall (fun line => exists item0, item0 ∈ item :: links /\
                      line = slot_line item0.1 item0.2)
              (map detail (filter (fun r => state r = AVAILABLE) rs))) as IH'.
    { eapply Forall_impl; [exact IH|]. intros line (i & Hi & ->).
      exists i. split; [by apply list_elem_of_further | done]. }
    rewrite filter_cons. destruct (decide (state r = AVAILABLE)) as [Ha|]; [|done].
    simpl. constructor; [|done]. exists item. split; [apply list_elem_of_here|].
    destruct Hs; simpl in *; done.
Qed.

(** X12: the status code of a response that [raise_for_status] lets through
    plays no role: a response with a status below 400 (or from 600 on) whose
    body is shorter than the marker, an empty body included, is reported as a
    free slot. *)
Theorem short_body_counts_as_slot (net : Network) (name url : string) (r : Response) :
  net url = Answers r ->
  status_code r < 400 \/ 600 <= status_code r ->
  (String.length (text r) < String.length FULL_TEXT)%nat ->
  check net name url = Done (mkResult name url AVAILABLE (slot_line name url)) /\
  forall rep, check_link net rep (name, url) =
    Done (mkReport (all_status_messages rep ++ [slot_line name url])
                   (slot_available_links rep ++ [slot_line name url])).
Proof.
  intros Hn Hs Hlen.
  assert (raise_for_status url r = Done tt) as Hr.
  { unfold raise_for_status.
    destruct (Z.leb_spec 400 (status_code r)), (Z.ltb_spec (status_code r) 500),
             (Z.leb_spec 500 (status_code r)), (Z.ltb_spec (status_code r) 600);
      simpl; try done; lia. }
  assert (contains FULL_TEXT (text r) = false) as Hc.
  { apply contains_false_iff. intros Ho%occurs_length. lia. }
  assert (check net name url = Done (mkResult name url AVAILABLE (slot_line name url))) as Hk.
  { unfold check, requests_get, link_request. simpl. rewrite Hn. simpl.
    rewrite Hr. simpl. by rewrite Hc. }
  split; [exact Hk|]. intros rep. by rewrite check_link_check, Hk.
Qed.

(** ** The loop *)

Lemma poll_loop_cons links t rest st st' outs :
  poll_loop links (t :: rest) st = Done (st', outs) ->
  exists st1 out1 outs',
    cycle (tick_net t) (tick_plat t) links st = Done (st1, out1) /\
    poll_loop links rest (run_commands (tick_commands t) st1) = Done (st', outs') /\
    outs = out1 :: outs'.
Proof.
  cbn [poll_loop]. intros Heq.
  destruct (cycle (tick_net t) (tick_plat t) links st) as [[st1 out1]| |] eqn:Hc;
    [|done..].
  cbn [mbind run_bind fst snd] in Heq.
  destruct (poll_loop links rest (run_commands (tick_commands t) st1))
    as [[st2 outs']| |] eqn:Hrest; [|done..].
  inversion Heq; subst. by exists st1, out1, outs'.
Qed.

Lemma run_command_not_subscribed c st x :
  x ∉ subscribed_users st -> notify_by c <> Some x ->
  x ∉ subscribed_users (run_command c st).1.
Proof.
  intros Hx Hc. destruct c as [ctx|ctx|ctx|ctx]; simpl in *;
    unfold notify, test_mode, stop, help, discard_user.
  - destruct (channel_is_dm ctx); simpl; [|done].
    destruct (decide _); simpl; [done|]. set_solver.
  - destruct (negb _); simpl; [done|]. repeat (destruct (decide _); simpl); done.
  - destruct (negb _); simpl; [done|]. destruct (decide _); simpl; [set_solver|done].
  - by destruct (negb _).
Qed.

Lemma run_commands_not_subscribed cs st x :
  x ∉ subscribed_users st ->
  (forall c, c ∈ cs -> notify_by c <> Some x) ->
  x ∉ subscribed_users (run_commands cs st).
Proof.
  unfold run_commands. revert st. induction cs as [|c cs IH]; intros st Hx Hcs; simpl; [done|].
  apply IH.
  - apply run_command_not_subscribed; [done|]. apply Hcs, list_elem_of_here.
  - intros c' Hc'. by apply Hcs, list_elem_of_further.
Qed.

Lemma run_commands_ok cs st : store_ok st -> store_ok (run_commands cs st).
Proof.
  unfold run_commands. revert st. induction cs as [|c cs IH]; intros st Hok; simpl; [done|].
  by apply IH, run_command_ok.
Qed.

Lemma cycle_ok net plat links st st' out :
  cycle net plat links st = Done (st', out) -> store_ok st -> store_ok st'.
Proof.
  intros Hc Hok. destruct (cycle_dispatch _ _ _ _ _ _ Hc) as (rep & _ & Hd).
  replace st' with (st', out).1 by done. rewrite Hd. by apply dispatch_ok.
Qed.

(** X13: who is not subscribed hears nothing from the loop: as long as the
    user issues no [notify] in a direct-message channel, no pass sends the
    user a message and the user stays out of [subscribed_users], whatever the
    other users do.  That covers a user who said [stop] and a user the loop
    dropped after [Forbidden]. *)
Theorem unsubscribed_user_stays_silent (links : list (string * string))
    (ticks : list Tick) (st st' : Store) (outs : list Outbox) (x : Z) :
  poll_loop links ticks st = Done (st', outs) ->
  x ∉ subscribed_users st ->
  (forall t c, t ∈ ticks -> c ∈ tick_commands t -> notify_by c <> Some x) ->
  (x ∉ subscribed_users st') /\
  Forall (fun out => sent_to x out = []) outs.
Proof.
  revert st outs. induction ticks as [|t rest IH]; intros st outs Hloop Hx Hcs.
  - simpl in Hloop. inversion Hloop; subst. split; [done | constructor].
  - apply poll_loop_cons in Hloop as (st1 & out1 & outs' & Hc & Hrest & ->).
    destruct (cycle_store _ _ _ _ _ _ x Hc) as (rep & _ & Hsent & H1 & _).
    rewrite decide_False in Hsent by done.
    assert (x ∉ subscribed_users st1) as Hx1 by (intros [? _]%H1; done).
    destruct (IH (run_commands (tick_commands t) st1) outs' Hrest) as [Hfin Houts].
    + apply run_commands_not_subscribed; [done|].
      intros c Hc'. apply (Hcs t c); [apply list_elem_of_here | done].
    + intros t' c Ht' Hc'. apply (Hcs t' c); [by apply list_elem_of_further | done].
    + split; [done|]. by constructor.
Qed.

(** X14: the loop keeps [test_mode_users] inside [subscribed_users] through
    any number of passes and of commands handled in between, and reports one
    outbox per pass. *)
Theorem loop_keeps_store_ok (links : list (string * string)) (ticks : list Tick)
    (st st' : Store) (outs : list Outbox) :
  store_ok st ->
  poll_loop links ticks st = Done (st', outs) ->
  store_ok st' /\ length outs = length ticks.
Proof.
  revert st outs. induction ticks as [|t rest IH]; intros st outs Hok Hloop.
  - simpl in Hloop. inversion Hloop; subst. done.
  - apply poll_loop_cons in Hloop as (st1 & out1 & outs' & Hc & Hrest & ->).
    destruct (IH (run_commands (tick_commands t) st1) outs') as [Hfin Hlen]; [|done|].
    + by eapply run_commands_ok, cycle_ok.
    + split; [done|]. simpl. by rewrite Hlen.
Qed.

Lemma run_command_idle c st :
  subscribed_users st = ∅ -> notify_by c = None -> (run_command c st).1 = st.
Proof.
  intros He Hc. destruct c as [ctx|ctx|ctx|ctx]; simpl in *;
    unfold notify, test_mode, stop, help.
  - by destruct (channel_is_dm ctx).
  - destruct (negb _); [done|]. rewrite He.
    destruct (decide (author_id ctx ∉ ∅)) as [|Hn]; [done|]. exfalso. apply Hn. set_solver.
  - destruct (negb _); [done|]. rewrite He.
    destruct (decide (author_id ctx ∈ ∅)) as [Hn|]; [|done]. set_solver.
  - by destruct (negb _).
Qed.

(** X15: with nobody subscribed the loop does not poll: while no [notify]
    arrives in a direct-message channel, every turn returns at once with an
    empty outbox and the same store, also when servers would never answer. *)
Theorem idle_loop_does_not_poll (links : list (string * string)) (ticks : list Tick)
    (st : Store) :
  subscribed_users st = ∅ ->
  (forall t c, t ∈ ticks -> c ∈ tick_commands t -> notify_by c = None) ->
  poll_loop links ticks st = Done (st, replicate (length ticks) []).
Proof.
  intros He. induction ticks as [|t rest IH]; intros Hcs; [done|].
  cbn [poll_loop]. unfold cycle. rewrite decide_True by done. simpl.
  assert (run_commands (tick_commands t) st = st) as ->.
  { assert (forall c, c ∈ tick_commands t -> notify_by c = None) as Ht
      by (intros c Hc; apply (Hcs t c); [apply list_elem_of_here | done]).
    unfold run_commands. induction (tick_commands t) as [|c cs IHc]; simpl; [done|].
    rewrite run_command_idle; [|done|apply Ht, list_elem_of_here].
    apply IHc. intros c' Hc'. by apply Ht, list_elem_of_further. }
  rewrite IH; [done|]. intros t' c Ht' Hc'. apply (Hcs t' c); [by apply list_elem_of_further|done].
Qed.

(** ** Messages *)


Lemma skip_string_prefix p s :
  String.prefix p s = false -> skip_string p s = None.
Proof.
  revert s. induction p as [|a p IH]; intros [|b s]; simpl; try done.
  destruct (ascii_dec a b) as [->|Hne].
  - rewrite Ascii.eqb_refl. apply IH.
  - intros _. by apply Ascii.eqb_neq in Hne as ->.
Qed.



(** X16: in a direct-message channel a message of somebody else that does
    not start with the prefix changes nothing and gets the fallback reply,
    once; a message that starts with the prefix never gets the fallback: it
    is answered by the command machinery alone. *)
Theorem dm_fallback_reply (message : Message) (st : Store) :
  from_self message = false ->
  channel_is_dm (message_ctx message) = true ->
  (String.prefix command_prefix (content message) = false ->
     on_message message st =
     (st, ["Sorry, I don't quite understand that. If you need help, type `testflight>help`. Thank you!"])) /\
  (String.prefix command_prefix (content message) = true ->
     on_message message st = process_commands message st).
Proof.
  intros Hself Hdm. unfold on_message. rewrite Hself, Hdm. split; intros Hp; rewrite Hp; simpl.
  - unfold process_commands. rewrite (skip_string_prefix _ _ Hp).
    by destruct (from_bot message).
  - by destruct (process_commands message st).
Qed.



(** X19: a message outside a direct-message channel never changes the
    store, whatever it says, and the only text it can draw is the
    direct-messages-only reply of [notify]. *)
Theorem group_message_never_changes_store (message : Message) (st : Store) :
  channel_is_dm (message_ctx message) = false ->
  (on_message message st).1 = st /\
  ((on_message message st).2 = [] \/
   (on_message message st).2 =
     ["This command only works in my DMs! Please message me directly."]).
Proof.
  intros Hdm. unfold on_message, process_commands. rewrite Hdm.
  destruct (from_self message); [by split; [|left]|].
  destruct (from_bot message); [by split; [|left]|].
  destruct (skip_string command_prefix (content message)) as [rest|]; [|by split; [|left]].
  destruct (all_commands (get_word rest)) as [command|] eqn:Hc; [|by split; [|left]].
  unfold all_commands in Hc.
  repeat match type of Hc with
         | (if ?b then _ else _) = _ => destruct b
         end; try done; injection Hc as <-; simpl;
    unfold notify, test_mode, stop, help; rewrite Hdm; simpl; split; auto.
Qed.

(** ** The further properties on the sample environment *)

(** Membership in a list written out. *)
Ltac list_cases H :=
  repeat (apply elem_of_cons in H as [->|H]); try (by apply elem_of_nil in H).

Example demo_store_ok : store_ok demo_store.
Proof.
  unfold store_ok, demo_store. cbn [test_mode_users subscribed_users].
  intros y Hy. apply elem_of_singleton in Hy as ->.
  apply elem_of_union_l, elem_of_union_r, elem_of_singleton. reflexivity.
Qed.

(** User 4 subscribes to [demo_store]; a second [notify] is refused. *)
Lemma notify_subscribes_once_witness :
  4 ∈ subscribed_users (notify (dm 4) demo_store).1 /\
  notify (dm 4) (notify (dm 4) demo_store).1 =
  ((notify (dm 4) demo_store).1, ["You are already subscribed!"]).
Proof.
  destruct (notify_subscribes_once (dm 4) demo_store) as (Hin & _ & _ & Hagain & _);
    [reflexivity|].
  split; [exact Hin | exact Hagain].
Defined.

(** User 2, in test mode, leaves [demo_store]. *)
Lemma stop_unsubscribes_witness :
  (2 ∉ subscribed_users (stop (dm 2) demo_store).1) /\
  (2 ∉ test_mode_users (stop (dm 2) demo_store).1).
Proof.
  destruct (stop_unsubscribes (dm 2) demo_store) as (_ & Hs & Ht & _);
    [reflexivity | vm_compute; reflexivity |].
  split; [exact Hs | exact Ht].
Defined.

(** User 4 comes and goes; user 1 goes and comes back. *)
Lemma notify_stop_round_trip_witness :
  (stop (dm 4) (notify (dm 4) demo_store).1).1 = demo_store /\
  (notify (dm 1) (stop (dm 1) demo_store).1).1 = demo_store.
Proof.
  destruct (notify_stop_round_trip (dm 4) demo_store) as [H4 _]; [reflexivity|].
  destruct (notify_stop_round_trip (dm 1) demo_store) as [_ H1]; [reflexivity|].
  split.
  - apply H4; [apply demo_store_ok | vm_compute; discriminate].
  - apply H1; [vm_compute; reflexivity | vm_compute; discriminate].
Defined.

(** User 2 leaves test mode behind by leaving and coming back. *)
Lemma resubscribe_resets_test_mode_witness :
  2 ∈ test_mode_users demo_store /\
  2 ∈ subscribed_users (notify (dm 2) (stop (dm 2) demo_store).1).1 /\
  (2 ∉ test_mode_users (notify (dm 2) (stop (dm 2) demo_store).1).1).
Proof.
  destruct (resubscribe_resets_test_mode (dm 2) demo_store) as (Hs & Ht & _);
    [reflexivity | apply demo_store_ok |].
  split; [vm_compute; reflexivity|]. split; [exact Hs | exact Ht].
Defined.

(** [stop] by user 1 leaves user 2 where user 2 was. *)
Lemma command_touches_only_author_witness :
  2 ∈ subscribed_users (run_command (CmdStop (dm 1)) demo_store).1 /\
  2 ∈ test_mode_users (run_command (CmdStop (dm 1)) demo_store).1.
Proof.
  destruct (command_touches_only_author (CmdStop (dm 1)) demo_store 2) as [Hs Ht];
    [discriminate|].
  split; [apply Hs | apply Ht]; vm_compute; reflexivity.
Defined.

Lemma dm_command_answers_once_witness :
  exists reply, (run_command (CmdTestMode (dm 1)) demo_store).2 = [reply].
Proof.
  destruct (dm_command_answers_once (CmdTestMode (dm 1)) demo_store) as [H _];
    [reflexivity | exact H].
Defined.

(** The pass over [demo_store] on [demo_net]: messages for users 2 and 1. *)
Lemma pass_messages_only_subscribers_witness :
  (1, demo_slots) ∈ demo_outbox /\
  (forall m, (3, m) ∉ demo_outbox) /\
  (length demo_outbox <= size (subscribed_users demo_store))%nat.
Proof.
  destruct (pass_messages_only_subscribers demo_net demo_plat TESTFLIGHT_LINKS demo_store
              (discard_user 2 demo_store) demo_outbox demo_report)
    as (Hiff & _ & Hlen); [vm_compute; reflexivity | vm_compute; reflexivity |].
  split; [|split; [|exact Hlen]].
  - apply Hiff. split; [vm_compute; reflexivity|]. split; [reflexivity|].
    right. split; [vm_compute; discriminate|]. split; [discriminate | reflexivity].
  - intros m [_ [Hl _]]%Hiff. discriminate Hl.
Defined.

(** User 2 is dropped from both sets, and the digest sent to user 2 is the
    send that raised [Forbidden]. *)
Lemma pass_only_removes_witness :
  subscribed_users (discard_user 2 demo_store) ⊆ subscribed_users demo_store /\
  exists m, (2, m) ∈ demo_outbox /\ send demo_plat (mkUser 2) m = Raises Forbidden.
Proof.
  destruct (pass_only_removes demo_net demo_plat TESTFLIGHT_LINKS demo_store
              (discard_user 2 demo_store) demo_outbox)
    as (Hs & _ & _ & Hwhy); [vm_compute; reflexivity|].
  split; [exact Hs|].
  destruct (Hwhy 2) as [_ [Hl|Hm]];
    [vm_compute; reflexivity | vm_compute; discriminate | discriminate Hl | exact Hm].
Defined.

(** User 3 cannot be looked up, stays subscribed and is sent nothing. *)
Lemma transient_failure_keeps_subscriber_witness :
  lookup demo_plat 3 = Raises (OtherException "Unknown User") /\
  3 ∈ subscribed_users (discard_user 2 demo_store) /\
  sent_to 3 demo_outbox = [].
Proof.
  destruct (transient_failure_keeps_subscriber demo_net demo_plat TESTFLIGHT_LINKS demo_store
              (discard_user 2 demo_store) demo_outbox 3)
    as (Hs & _ & Hnone);
    [vm_compute; reflexivity | discriminate | intros m; discriminate |].
  split; [reflexivity|]. split; [apply Hs; vm_compute; reflexivity|].
  apply Hnone. discriminate.
Defined.

(** On [refusing_plat] the lookup of user 2 raises [Forbidden]. *)
Lemma forbidden_lookup_drops_without_send_witness :
  exists st' out,
    cycle demo_net refusing_plat TESTFLIGHT_LINKS demo_store = Done (st', out) /\
    (2 ∉ subscribed_users st') /\ (2 ∉ test_mode_users st') /\ sent_to 2 out = [].
Proof.
  assert (exists s, cycle demo_net refusing_plat TESTFLIGHT_LINKS demo_store = Done s) as [[st' out] Hc]
    by (eexists; vm_compute; reflexivity).
  exists st', out. split; [exact Hc|].
  apply (forbidden_lookup_drops_without_send demo_net refusing_plat TESTFLIGHT_LINKS
           demo_store st' out 2 Hc); [vm_compute; reflexivity | reflexivity].
Defined.

Lemma one_line_per_link_witness :
  length (all_status_messages demo_report) = 5%nat /\
  slot_available_links demo_report `sublist_of` all_status_messages demo_report.
Proof.
  destruct (one_line_per_link demo_net TESTFLIGHT_LINKS demo_report) as (Hlen & _ & Hsub & _);
    [vm_compute; reflexivity|].
  split; [exact Hlen | exact Hsub].
Defined.

(** A 204 answer without a body is taken for a free slot. *)
Lemma short_body_counts_as_slot_witness :
  check empty_net "Group A" URL_A =
  Done (mkResult "Group A" URL_A AVAILABLE (slot_line "Group A" URL_A)).
Proof.
  apply (short_body_counts_as_slot empty_net "Group A" URL_A (mkResponse 204 "No Content" ""));
    [reflexivity | left; reflexivity | vm_compute; lia].
Defined.

(** User 2, dropped before, asks for help and says [notify] in a group
    channel: still nothing is sent to user 2. *)
Lemma unsubscribed_user_stays_silent_witness :
  exists st' outs,
    poll_loop TESTFLIGHT_LINKS demo_ticks (discard_user 2 demo_store) = Done (st', outs) /\
    (2 ∉ subscribed_users st') /\ Forall (fun out => sent_to 2 out = []) outs.
Proof.
  assert (exists s, poll_loop TESTFLIGHT_LINKS demo_ticks (discard_user 2 demo_store) = Done s)
    as [[st' outs] Hl] by (eexists; vm_compute; reflexivity).
  exists st', outs. split; [exact Hl|].
  apply (unsubscribed_user_stays_silent TESTFLIGHT_LINKS demo_ticks
           (discard_user 2 demo_store) st' outs 2 Hl); [vm_compute; discriminate|].
  intros t c Ht Hc. unfold demo_ticks in Ht. list_cases Ht; simpl in Hc; list_cases Hc;
    discriminate.
Defined.

Lemma loop_keeps_store_ok_witness :
  exists st' outs,
    poll_loop TESTFLIGHT_LINKS demo_ticks demo_store = Done (st', outs) /\
    store_ok st' /\ length outs = 2%nat.
Proof.
  assert (exists s, poll_loop TESTFLIGHT_LINKS demo_ticks demo_store = Done s)
    as [[st' outs] Hl] by (eexists; vm_compute; reflexivity).
  exists st', outs. split; [exact Hl|].
  apply (loop_keeps_store_ok TESTFLIGHT_LINKS demo_ticks demo_store st' outs);
    [apply demo_store_ok | exact Hl].
Defined.

(** Nobody is subscribed and no server answers: the loop still returns. *)
Lemma idle_loop_does_not_poll_witness :
  poll_loop TESTFLIGHT_LINKS
    [mkTick dead_net demo_plat [CmdStop (dm 1); CmdNotify (group 1)];
     mkTick dead_net demo_plat [CmdTestMode (dm 1)]] empty_store =
  Done (empty_store, [[]; []]).
Proof.
  apply (idle_loop_does_not_poll TESTFLIGHT_LINKS
           [mkTick dead_net demo_plat [CmdStop (dm 1); CmdNotify (group 1)];
            mkTick dead_net demo_plat [CmdTestMode (dm 1)]] empty_store); [reflexivity|].
  intros t c Ht Hc. list_cases Ht; simpl in Hc; list_cases Hc; reflexivity.
Defined.

Lemma dm_fallback_reply_witness :
  on_message (said (dm 1) "hello") demo_store = (demo_store, [FALLBACK_MSG]) /\
  on_message (said (dm 1) "testflight>stop") demo_store =
  process_commands (said (dm 1) "testflight>stop") demo_store.
Proof.
  split.
  - apply (dm_fallback_reply (said (dm 1) "hello") demo_store); reflexivity.
  - apply (dm_fallback_reply (said (dm 1) "testflight>stop") demo_store); reflexivity.
Defined.



Lemma group_message_never_changes_store_witness :
  (on_message (said (group 5) "testflight>notify") demo_store).1 = demo_store /\
  (on_message (said (group 1) "testflight>stop") demo_store).1 = demo_store.
Proof.
  split.
  - apply (group_message_never_changes_store (said (group 5) "testflight>notify") demo_store).
    reflexivity.
  - apply (group_message_never_changes_store (said (group 1) "testflight>stop") demo_store).
    reflexivity.
Defined.
